(** * declpyqt5: the widget tree model of [declpyqt5.py]

    A shallow embedding of the descriptor layer of declpyqt5: keys, the build
    context, the widget classes with their [build] and [paintWidget] methods,
    and the [Application] object.  Python objects are records and constructors
    carrying the attributes the classes assign; methods are functions named
    after them; the PyQt5 elements a paint pass creates are values of
    [QWidget].  Builtins that the module calls but does not define ([hash],
    [repr], [uuid.uuid4]) are section variables. *)

From stdpp Require Import base numbers option list strings gmap pretty.

Local Open Scope string_scope.
Local Open Scope list_scope.
Local Open Scope Z_scope.

(** ** Python values, exceptions and results *)

(** The values that flow through the arguments typed [Any], [int] or [str]. *)
Inductive PyVal :=
| VNone
| VBool (b : bool)
| VInt (n : Z)
| VStr (s : string).

(** [isinstance(v, int)], returning the integer value: [bool] is a subclass
    of [int] with [True == 1] and [False == 0]. *)
Definition py_int_value (v : PyVal) : option Z :=
  match v with
  | VInt n => Some n
  | VBool b => Some (if b then 1 else 0)
  | _ => None
  end.

(** [a == b] on values. *)
Definition py_val_eq (a b : PyVal) : bool :=
  match a, b with
  | VNone, VNone => true
  | VStr s, VStr t => bool_decide (s = t)
  | VStr _, _ | _, VStr _ => false
  | VNone, _ | _, VNone => false
  | _, _ => bool_decide (py_int_value a = py_int_value b)
  end.

(** [str(v)]. *)
Definition py_str (v : PyVal) : string :=
  match v with
  | VNone => "None"
  | VBool true => "True"
  | VBool false => "False"
  | VInt n => pretty n
  | VStr s => s
  end.

(** [sep.join(parts)]. *)
Fixpoint join (sep : string) (parts : list string) : string :=
  match parts with
  | [] => ""
  | [p] => p
  | p :: rest => p +:+ sep +:+ join sep rest
  end.

(** [xs[i]] on a list: a negative index counts from the end, and an index
    outside [-len, len) raises [IndexError] (here [None]). *)
Definition py_index {A} (xs : list A) (i : Z) : option A :=
  let n := Z.of_nat (length xs) in
  if bool_decide (0 <= i < n) then xs !! Z.to_nat i
  else if bool_decide (- n <= i < 0) then xs !! Z.to_nat (i + n)
  else None.

Inductive Exception :=
| ValueError (msg : string)
| TypeError (msg : string)
| AttributeError (msg : string)
| IndexError (msg : string).

Inductive result (A : Type) :=
| Ok (a : A)
| Raise (e : Exception).
Arguments Ok {A} a.
Arguments Raise {A} e.

(** Sequencing: an exception ends the computation.  With these instances
    [x ← r; k] is stdpp's notation for it. *)
Global Instance result_ret : MRet result := λ A a, Ok a.
Global Instance result_bind : MBind result := λ A B k r,
  match r with
  | Ok a => k a
  | Raise e => Raise e
  end.

Definition is_Ok {A} (r : result A) : Prop := ∃ a, r = Ok a.
Definition raises {A} (r : result A) : Prop := ∃ e, r = Raise e.

(** A callable handed to a widget as a callback: the name of its Python type
    (what [type(f)] prints) and its identity. *)
Record Callable := { callable_type : string; callable_id : nat }.

(** ['%s' % type(x)] for a callback attribute that may be [None]. *)
Definition py_type_str (f : option Callable) : string :=
  match f with
  | None => "<class 'NoneType'>"
  | Some c => "<class '" +:+ callable_type c +:+ "'>"
  end.

(** ** Keys *)

Definition UUID := N.

Inductive Key :=
| AnyKey                       (* class Key *)
| ValueKey (_value : PyVal)
| UniqueKey (_hash : UUID).

(** [Key.__eq__], [ValueKey.__eq__] and [UniqueKey.__eq__], selected by the
    class of the receiver [self]. *)
Definition Key___eq__ (self other : Key) : bool :=
  match self with
  | AnyKey => true
  | ValueKey v =>
      match other with
      | ValueKey v' => py_val_eq v v'
      | _ => false
      end
  | UniqueKey h =>
      match other with
      | UniqueKey h' => bool_decide (h = h')
      | _ => false
      end
  end.

(** [UniqueKey.__init__] draws its token from [uuid.uuid4].  [uuid4 n] is the
    value of the call number [n] of the process; the constructor takes the
    number of calls made so far and returns it increased. *)
Section UniqueKeys.

Variable uuid4 : nat → UUID.


End UniqueKeys.

(** [a == b] written with the operator.  Python asks the right operand
    first when its class is a proper subclass of the left operand's class
    and overrides [__eq__]; [ValueKey] and [UniqueKey] are such subclasses
    of [Key], and their [__eq__] never answers [NotImplemented]. *)
Definition Key_eq_operator (a b : Key) : bool :=
  match a, b with
  | AnyKey, ValueKey _ | AnyKey, UniqueKey _ => Key___eq__ b a
  | _, _ => Key___eq__ a b
  end.

(** ** Build contexts and widgets *)

(** Objects that are shared by reference are named by their address. *)
Definition app_ref := nat.
Definition ctx_ref := nat.

Record BuildContext := {
  _application : option app_ref;
  counter : Z
}.

Definition BuildContext_init (application : option app_ref) : BuildContext :=
  {| _application := application; counter := 0 |}.

(** The attributes every [Widget] carries. *)
Record WidgetBase := {
  _key : Key;
  _context : option ctx_ref;
  _hash : Z
}.

Inductive Alignment :=
| Alignment_none
| Alignment_start
| Alignment_center
| Alignment_end.

#[warnings="-register-all"]
Inductive Widget :=
| Text (base : WidgetBase) (_text : string)
| LabelButton (base : WidgetBase) (_label _tooltip : string)
    (_ontap : option Callable)
| TextField (base : WidgetBase) (_placeholder _value : string)
    (_onchanged : option Callable) (_hidden : bool)
| Expanded (base : WidgetBase) (_child : Widget) (_flex : Z)
| AxisAlignedBox (base : WidgetBase) (_children : list Widget)
    (_vertical : bool)
| Column (base : WidgetBase) (_children : list (option Widget))
    (_alignment : Alignment) (_child : option Widget)
| Row (base : WidgetBase) (_children : list (option Widget))
    (_alignment : Alignment) (_child : option Widget)
| TableView (base : WidgetBase) (_rows _cols : Z) (_headers : list PyVal)
    (_data : list (list PyVal)) (_onselected _onchanged : option Callable)
| DropdownList (base : WidgetBase) (_items : list string) (_index : Z)
    (_onchanged : option Callable).

Definition widget_base (w : Widget) : WidgetBase :=
  match w with
  | Text b _ | LabelButton b _ _ _ | TextField b _ _ _ _ | Expanded b _ _
  | AxisAlignedBox b _ _ | Column b _ _ _ | Row b _ _ _
  | TableView b _ _ _ _ _ _ | DropdownList b _ _ _ => b
  end.

Definition hash_of (w : Widget) : Z := _hash (widget_base w).
Definition context_of (w : Widget) : option ctx_ref := _context (widget_base w).

(** [isinstance(child, Expanded)]. *)
Definition is_Expanded (w : Widget) : bool :=
  match w with
  | Expanded _ _ _ => true
  | _ => false
  end.

(** The flex a box reads off a child:
    [child._flex if isinstance(child, Expanded) else 0]. *)
Definition child_flex (child : Widget) : Z :=
  match child with
  | Expanded _ _ flex => flex
  | _ => 0
  end.

(** The attribute [_child] of a [Column] or [Row]: the box it delegates to,
    once [build] has made it. *)
Definition adapter_child (w : Widget) : option Widget :=
  match w with
  | Column _ _ _ child | Row _ _ _ child => child
  | _ => None
  end.

(** *** Constructors ([__init__]) *)

Definition Widget_init (key : Key) : WidgetBase :=
  {| _key := key; _context := None; _hash := 0 |}.

Definition Text_init (text : option string) (key : Key) : Widget :=
  let text := match text with None => "" | Some t => t end in
  Text (Widget_init key) text.

Definition LabelButton_init (key : Key) (label tooltip : string)
    (onTap : option Callable) : Widget :=
  LabelButton (Widget_init key) label tooltip onTap.

Definition TextField_init (key : Key) (placeholder value : string)
    (hidden : bool) (onChanged : option Callable) : Widget :=
  TextField (Widget_init key) placeholder value onChanged hidden.

Definition Expanded_init (key : Key) (child : option Widget) (flex : PyVal)
    : result Widget :=
  let base := Widget_init key in
  match child with
  | None => Raise (ValueError "Expanded must have a non-null child")
  | Some child =>
      match py_int_value flex with
      | None => Raise (ValueError "flex must be a non-negative integer")
      | Some n =>
          if bool_decide (n <= 0)
          then Raise (ValueError "flex must be a non-negative integer")
          else Ok (Expanded base child n)
      end
  end.

(** A positive integer, as Python sees it: an instance of [int] (which
    [True] and [False] are) whose value is greater than zero. *)
Definition positive_integer (v : PyVal) : Prop :=
  ∃ n, py_int_value v = Some n ∧ 0 < n.

(** The value of [Expanded(child=Text(''), flex=1)], see [spacer_init]. *)
Definition spacer : Widget :=
  Expanded (Widget_init AnyKey) (Text_init (Some "") AnyKey) 1.

Definition AxisAlignedBox_has_expanded (children : list (option Widget)) : bool :=
  foldl (fun has_expanded child =>
           match child with
           | Some child => if is_Expanded child then true else has_expanded
           | None => has_expanded
           end) false children.

Definition AxisAlignedBox_init (key : Key) (children : list (option Widget))
    (vertical : bool) (alignment : Alignment) : Widget :=
  let base := Widget_init key in
  let _children := [] in
  let has_expanded := AxisAlignedBox_has_expanded children in
  let _children :=
    if negb has_expanded then
      match alignment with
      | Alignment_center | Alignment_end => _children ++ [spacer]
      | _ => _children
      end
    else _children in
  let _children :=
    foldl (fun acc child =>
             match child with
             | Some child => acc ++ [child]
             | None => acc
             end) _children children in
  let _children :=
    if negb has_expanded then
      match alignment with
      | Alignment_start | Alignment_center => _children ++ [spacer]
      | _ => _children
      end
    else _children in
  AxisAlignedBox base _children vertical.

(** The spacers [AxisAlignedBox_init] ends up putting before and after the
    declared children, see [AxisAlignedBox_init_children]. *)
Definition spacers_before (has_expanded : bool) (alignment : Alignment)
    : list Widget :=
  if has_expanded then []
  else match alignment with
       | Alignment_center | Alignment_end => [spacer]
       | _ => []
       end.

Definition spacers_after (has_expanded : bool) (alignment : Alignment)
    : list Widget :=
  if has_expanded then []
  else match alignment with
       | Alignment_start | Alignment_center => [spacer]
       | _ => []
       end.

Definition Column_init (key : Key) (children : list (option Widget))
    (alignment : Alignment) : Widget :=
  Column (Widget_init key) children alignment None.

Definition Row_init (key : Key) (children : list (option Widget))
    (alignment : Alignment) : Widget :=
  Row (Widget_init key) children alignment None.

Definition TableView_init (key : Key) (rows columns : Z) (headers : list PyVal)
    (data : list (list PyVal)) (onSelected onChanged : option Callable) : Widget :=
  TableView (Widget_init key) rows columns headers data onSelected onChanged.

Definition DropdownList_init (key : Key) (items : list PyVal) (index : Z)
    (onChanged : option Callable) : Widget :=
  let _items := foldl (fun acc item => acc ++ [py_str item]) [] items in
  DropdownList (Widget_init key) _items index onChanged.

(** ** The elements PyQt5 creates *)

(** What a signal is connected to: a callback of the application, or one of
    the closures [paintWidget] defines around a callback, recorded with the
    attributes of the widget as they are when the closure is made. *)
Inductive Slot :=
| SlotCallable (f : Callable)
| SlotTableOnSelect (onselected : option Callable) (data : list (list PyVal))
| SlotTableOnChanged (onchanged : option Callable)
| SlotDropdownOnSelected (onchanged : option Callable) (items : list string).

#[warnings="-register-all"]
Inductive QWidget :=
| QLabel (text : string)
| QPushButton (text toolTip : string) (clicked : list Slot)
| QLineEdit (text : string) (echoPassword : bool) (textChanged : list Slot)
| QTableWidget (rowCount columnCount : Z) (items : gmap (Z * Z) string)
    (horizontalHeader : gmap Z string) (cellClicked cellChanged : list Slot)
| QComboBox (items : list string) (currentIndex : Z)
    (currentIndexChanged : list Slot)
| QBox (vertical : bool) (layout : list (QWidget * Z)).
    (* a QWidget whose layout is a QVBoxLayout or a QHBoxLayout; each slot
       of the layout holds an element and its stretch factor *)

(** [signal.connect(slot)]: PyQt5 refuses [None] with a [TypeError]. *)
Definition connect (signal : list Slot) (slot : option Callable)
    : result (list Slot) :=
  match slot with
  | None => Raise (TypeError "argument 1 has unexpected type 'NoneType'")
  | Some f => Ok (signal ++ [SlotCallable f])
  end.

(** [layout.addWidget(widget)]: a new last slot, with stretch 0. *)
Definition addWidget (layout : list (QWidget * Z)) (widget : QWidget)
    : list (QWidget * Z) :=
  layout ++ [(widget, 0)].

(** [layout.setStretch(i, stretch)]: nothing happens out of range. *)
Definition setStretch (i : nat) (stretch : Z) (layout : list (QWidget * Z))
    : list (QWidget * Z) :=
  alter (λ slot, (slot.1, stretch)) i layout.

(** [for i, flex in enumerate(flexes): layout.setStretch(i, flex)]. *)
Definition setStretches (flexes : list Z) (layout : list (QWidget * Z))
    : list (QWidget * Z) :=
  foldl (λ layout '(i, flex), setStretch i flex layout) layout
        (imap pair flexes).

(** [range(n)]. *)
Definition range (n : Z) : list Z := seqZ 0 n.

(** ** Build and paint *)

Section Widgets.

(** The builtins [hash] (on [str]) and [repr]: any functions will do. *)
Variable hash : string → Z.
Variable repr : PyVal → string.

(** [str(xs)] for a list: the [repr] of the elements between brackets. *)
Definition py_str_list (elems : list string) : string :=
  "[" +:+ join ", " elems +:+ "]".

Definition py_str_data (data : list (list PyVal)) : string :=
  py_str_list (map (λ row, py_str_list (map repr row)) data).

(** [Widget.build]: the context is captured and the hash reset. *)
Definition Widget_build (context : ctx_ref) (base : WidgetBase) : WidgetBase :=
  {| _key := _key base; _context := Some context; _hash := 0 |}.

(** [self._hash = h]. *)
Definition set_hash (h : Z) (base : WidgetBase) : WidgetBase :=
  {| _key := _key base; _context := _context base; _hash := h |}.

(** The bodies of the [build] methods; [rec] is the dynamically dispatched
    [child.build(context)], which leaves the child updated in place.  The
    box a [Column] or [Row] makes holds the very objects of its [_children]
    list, so building the box builds them too. *)
Definition build_step (rec : Widget → Widget) (context : ctx_ref)
    (self : Widget) : Widget :=
  match self with
  | Text base text =>
      let base := Widget_build context base in
      Text (set_hash (hash ("Text(text=" +:+ text +:+ ")")) base) text
  | LabelButton base label tooltip ontap =>
      let base := Widget_build context base in
      let h := hash ("LabelButton(label=" +:+ label +:+ ",tooltip=" +:+ tooltip
                       +:+ ",onTap=" +:+ py_type_str ontap +:+ ")") in
      LabelButton (set_hash h base) label tooltip ontap
  | TextField base placeholder value onchanged hidden =>
      let base := Widget_build context base in
      let h := hash ("TextField(placeholder=" +:+ placeholder +:+ ",hidden="
                       +:+ py_str (VBool hidden) +:+ ",onChanged="
                       +:+ py_type_str onchanged +:+ ")") in
      TextField (set_hash h base) placeholder value onchanged hidden
  | Expanded base child flex =>
      let base := Widget_build context base in
      let child := rec child in
      let h := hash ("Expanded(child=" +:+ pretty (hash_of child) +:+ ",flex="
                       +:+ pretty flex +:+ ")") in
      Expanded (set_hash h base) child flex
  | AxisAlignedBox base children vertical =>
      let base := Widget_build context base in
      let children := map rec children in
      let h := hash ("AxisAlignedBox(children=["
                       +:+ join "," (map (λ child, pretty (hash_of child)) children)
                       +:+ "])") in
      AxisAlignedBox (set_hash h base) children vertical
  | Column base children alignment _ =>
      let base := Widget_build context base in
      let child := AxisAlignedBox_init AnyKey children true alignment in
      let child := rec child in
      let h := hash ("Column(" +:+ pretty (hash_of child) +:+ ")") in
      Column (set_hash h base) (map (fmap rec) children) alignment (Some child)
  | Row base children alignment _ =>
      let base := Widget_build context base in
      let child := AxisAlignedBox_init AnyKey children false alignment in
      let child := rec child in
      let h := hash ("Row(" +:+ pretty (hash_of child) +:+ ")") in
      Row (set_hash h base) (map (fmap rec) children) alignment (Some child)
  | TableView base rows cols headers data onselected onchanged =>
      let base := Widget_build context base in
      let h := hash ("TableView(rows=" +:+ pretty rows +:+ ",columns="
                       +:+ pretty cols +:+ ",data=" +:+ py_str_data data +:+ ")") in
      TableView (set_hash h base) rows cols headers data onselected onchanged
  | DropdownList base items index onchanged =>
      let base := Widget_build context base in
      let h := hash ("DropdownList(items="
                       +:+ join "," (map (λ i, pretty (hash i)) items) +:+ ")") in
      DropdownList (set_hash h base) items index onchanged
  end.

(** The nesting depth of a widget; a [Column] or [Row] counts the box and the
    spacers it creates when built. *)
Fixpoint height (w : Widget) : nat :=
  match w with
  | Expanded _ child _ => S (height child)
  | AxisAlignedBox _ children _ => S (max_list (map height children))
  | Column _ children _ _ | Row _ children _ _ =>
      4 + max_list (map (λ child, from_option height 0%nat child) children)
  | _ => 1
  end.

Fixpoint build_fuel (fuel : nat) (context : ctx_ref) (self : Widget) : Widget :=
  match fuel with
  | O => self
  | S fuel => build_step (build_fuel fuel context) context self
  end.

(** [self.build(context)]: the recursion of [build_step] run to the depth of
    the widget, see [build_unfold]. *)
Definition build (context : ctx_ref) (self : Widget) : Widget :=
  build_fuel (height self) context self.

(** [TableView._getdataitem]. *)
Definition TableView__getdataitem (data : list (list PyVal)) (row col : Z)
    : result string :=
  if bool_decide (row < Z.of_nat (length data)) then
    match py_index data row with
    | None => Raise (IndexError "list index out of range")
    | Some r =>
        if bool_decide (col < Z.of_nat (length r)) then
          match py_index r col with
          | None => Raise (IndexError "list index out of range")
          | Some v => Ok (py_str v)
          end
        else Ok ""
    end
  else Ok "".

(** The header of column [i]:
    [str(self._headers[i] if i < len(self._headers) else i + 1)]. *)
Definition TableView_header (headers : list PyVal) (i : Z) : result string :=
  if bool_decide (i < Z.of_nat (length headers)) then
    match py_index headers i with
    | None => Raise (IndexError "list index out of range")
    | Some h => Ok (py_str h)
    end
  else Ok (py_str (VInt (i + 1))).

(** A [for] loop whose body may raise. *)
Definition for_each {A S} (body : S → A → result S) : list A → S → result S :=
  fix go xs s :=
    match xs with
    | [] => Ok s
    | x :: xs => s ← body s x; go xs s
    end.

(** The first loop of [AxisAlignedBox.paintWidget], over the children. *)
Definition AxisAlignedBox_paint_children (paint : Widget → result QWidget)
    : list Widget → list (QWidget * Z) * list Z
      → result (list (QWidget * Z) * list Z) :=
  fix go children st :=
    match children with
    | [] => Ok st
    | child :: children =>
        widget ← paint child;
        let layout := addWidget st.1 widget in
        let flex := child_flex child in
        go children (layout, st.2 ++ [flex])
    end.

(** [self.paintWidget()]. *)
Fixpoint paintWidget (self : Widget) : result QWidget :=
  match self with
  | Text _ text => Ok (QLabel text)
  | LabelButton _ label tooltip ontap =>
      let clicked := [] in
      clicked ← (if ontap is Some _ then connect clicked ontap else Ok clicked);
      Ok (QPushButton label tooltip clicked)
  | TextField _ placeholder value onchanged hidden =>
      let echoPassword := if hidden then true else false in
      let textChanged := [] in
      textChanged ← connect textChanged onchanged;
      Ok (QLineEdit value echoPassword textChanged)
  | Expanded _ child _ => paintWidget child
  | AxisAlignedBox _ children vertical =>
      st ← AxisAlignedBox_paint_children paintWidget children ([], []);
      let layout := setStretches st.2 st.1 in
      Ok (QBox vertical layout)
  | Column _ _ _ child | Row _ _ _ child =>
      match child with
      | None => Raise (AttributeError "object has no attribute '_child'")
          (* [build] has not run: the attribute was never assigned *)
      | Some child => paintWidget child
      end
  | TableView _ rows cols headers data onselected onchanged =>
      items ← for_each (λ items row,
                 for_each (λ items col,
                    data ← TableView__getdataitem data row col;
                    Ok (<[(row, col) := data]> items))
                  (range cols) items)
               (range rows) (∅ : gmap (Z * Z) string);
      hheader ← for_each (λ hheader i,
                   head ← TableView_header headers i;
                   Ok (<[i := head]> hheader))
                 (range cols) (∅ : gmap Z string);
      Ok (QTableWidget rows cols items hheader
            [SlotTableOnSelect onselected data] [SlotTableOnChanged onchanged])
  | DropdownList _ items index onchanged =>
      Ok (QComboBox items index [SlotDropdownOnSelected onchanged items])
  end.

(** ** The application and the shared store *)

(** The top-level window [Application.run] creates. *)
Record Window := {
  window_has_layout : bool;
  windowTitle : string;
  window_size : option (Z * Z);
  window_visible : bool
}.

(** An [Application] object.  [_layout] is assigned by [run] only: [None]
    stands for the missing attribute; [app_application] is the attribute
    [_application] (whether the [QApplication] exists), [app_context] is
    [_context]; [_frame], which stays [None], is left out. *)
Record Application := {
  app_context : ctx_ref;
  _builder : option (ctx_ref → Widget);
  _title : string;
  _state : option Widget;
  _running : bool;
  _widget : option Window;
  app_application : bool;
  _layout : option (list QWidget);
  _windowsize : option Z * option Z
}.

(** What the program asked of the host besides creating elements. *)
Inductive QtEvent :=
| QApplication_new
| deleteLater (w : QWidget)
| exec_.

(** The objects reachable by reference, and the output written so far. *)
Record World := {
  stdout : list string;
  contexts : gmap ctx_ref BuildContext;
  apps : gmap app_ref Application;
  qt_events : list QtEvent
}.

(** Statements: they change the store and return or raise. *)
Definition Py (A : Type) : Type := World → World * result A.

Global Instance Py_ret : MRet Py := λ A a w, (w, Ok a).
Global Instance Py_bind : MBind Py := λ A B k m w,
  match m w with
  | (w, Ok a) => k a w
  | (w, Raise e) => (w, Raise e)
  end.

Definition raise {A} (e : Exception) : Py A := λ w, (w, Raise e).

Definition lift {A} (r : result A) : Py A := λ w, (w, r).

Definition print (line : string) : Py unit := λ w,
  ({| stdout := stdout w ++ [line]; contexts := contexts w; apps := apps w;
      qt_events := qt_events w |}, Ok ()).

Definition qt (ev : QtEvent) : Py unit := λ w,
  ({| stdout := stdout w; contexts := contexts w; apps := apps w;
      qt_events := qt_events w ++ [ev] |}, Ok ()).

(** Reading the object behind a reference.  A reference of a running
    program always names an object; the other case is there for stores put
    together by hand. *)
Definition get_context (c : ctx_ref) : Py BuildContext := λ w,
  match contexts w !! c with
  | Some ctx => (w, Ok ctx)
  | None => (w, Raise (AttributeError "no such object"))
  end.

Definition get_app (a : app_ref) : Py Application := λ w,
  match apps w !! a with
  | Some app => (w, Ok app)
  | None => (w, Raise (AttributeError "no such object"))
  end.

Definition put_context (c : ctx_ref) (ctx : BuildContext) : Py unit := λ w,
  ({| stdout := stdout w; contexts := <[c := ctx]> (contexts w); apps := apps w;
      qt_events := qt_events w |}, Ok ()).

Definition put_app (a : app_ref) (app : Application) : Py unit := λ w,
  ({| stdout := stdout w; contexts := contexts w; apps := <[a := app]> (apps w);
      qt_events := qt_events w |}, Ok ()).

(** Assignments to the attributes of an [Application]. *)
Definition set__state (v : option Widget) (app : Application) : Application :=
  {| app_context := app_context app; _builder := _builder app;
     _title := _title app; _state := v; _running := _running app;
     _widget := _widget app; app_application := app_application app;
     _layout := _layout app; _windowsize := _windowsize app |}.

Definition set_app_application (v : bool) (app : Application) : Application :=
  {| app_context := app_context app; _builder := _builder app;
     _title := _title app; _state := _state app; _running := _running app;
     _widget := _widget app; app_application := v;
     _layout := _layout app; _windowsize := _windowsize app |}.

Definition set__widget (v : option Window) (app : Application) : Application :=
  {| app_context := app_context app; _builder := _builder app;
     _title := _title app; _state := _state app; _running := _running app;
     _widget := v; app_application := app_application app;
     _layout := _layout app; _windowsize := _windowsize app |}.

Definition set__layout (v : option (list QWidget)) (app : Application)
    : Application :=
  {| app_context := app_context app; _builder := _builder app;
     _title := _title app; _state := _state app; _running := _running app;
     _widget := _widget app; app_application := app_application app;
     _layout := v; _windowsize := _windowsize app |}.

(** [self.attr = v] on the application at [self]. *)
Definition update_app (self : app_ref) (f : Application → Application)
    : Py unit :=
  app ← get_app self; put_app self (f app).

(** [self._builder(self._context)]. *)
Definition call_builder (app : Application) : Py Widget :=
  match _builder app with
  | None => raise (TypeError "'NoneType' object is not callable")
  | Some builder => mret (builder (app_context app))
  end.

(** [Application.__init__]: the new object's address is returned. *)
Definition Application_init (context : option ctx_ref)
    (builder : option (ctx_ref → Widget)) (title : string)
    (width height : option Z) : Py app_ref := λ w,
  let self : app_ref := fresh (dom (apps w)) in
  let '(context, ctxs) :=
    match context with
    | None =>
        let c : ctx_ref := fresh (dom (contexts w)) in
        (c, <[c := BuildContext_init (Some self)]> (contexts w))
    | Some c =>
        (c, alter (λ ctx, {| _application := Some self;
                             counter := counter ctx |}) c (contexts w))
    end in
  let app := {| app_context := context; _builder := builder; _title := title;
                _state := None; _running := false; _widget := None;
                app_application := false; _layout := None;
                _windowsize := (width, height) |} in
  ({| stdout := stdout w; contexts := ctxs; apps := <[self := app]> (apps w);
      qt_events := qt_events w |}, Ok self).

(** [Application.setState]. *)
Definition Application_setState (self : app_ref) : Py unit :=
  app ← get_app self;
  newState ← call_builder app;
  let newState := build (app_context app) newState in
  match _layout app with
  | None =>
      raise (AttributeError "'Application' object has no attribute '_layout'")
  | Some layout =>
      match layout with
      | [] => raise (AttributeError "'NoneType' object has no attribute 'widget'")
      | oldWidget :: layout =>
          update_app self (set__layout (Some layout));;
          qt (deleteLater oldWidget);;
          widget ← lift (paintWidget newState);
          update_app self (set__layout (Some (layout ++ [widget])))
      end
  end.

(** [Application.run]. *)
Definition Application_run (self : app_ref) : Py unit :=
  app ← get_app self;
  if _running app then mret ()
  else
    state ← call_builder app;
    update_app self (set__state (Some state));;
    let state := build (app_context app) state in
    update_app self (set__state (Some state));;
    qt QApplication_new;;
    update_app self (set_app_application true);;
    let window := {| window_has_layout := false; windowTitle := "";
                     window_size := None; window_visible := false |} in
    update_app self (set__widget (Some window));;
    update_app self (set__layout (Some []));;
    widget ← lift (paintWidget state);
    update_app self (set__layout (Some [widget]));;
    let window := {| window_has_layout := true; windowTitle := _title app;
                     window_size :=
                       match _windowsize app with
                       | (Some _width, Some _height) => Some (_width, _height)
                       | _ => None
                       end;
                     window_visible := true |} in
    update_app self (set__widget (Some window));;
    qt exec_.

(** [BuildContext.setState]. *)
Definition BuildContext_setState (self : ctx_ref) : Py unit :=
  ctx ← get_context self;
  match _application ctx with
  | Some application => Application_setState application
  | None => mret ()
  end.

(** The methods of class [BuildContext] that take no argument, by name. *)
Definition BuildContext_methods : gmap string (ctx_ref → Py unit) :=
  {[ "setState" := BuildContext_setState ]}.

(** [obj.name()] where [obj] is [None] or a [BuildContext]. *)
Definition call_method (obj : option ctx_ref) (name : string) : Py unit :=
  match obj with
  | None =>
      raise (AttributeError
               ("'NoneType' object has no attribute '" +:+ name +:+ "'"))
  | Some c =>
      match BuildContext_methods !! name with
      | Some method => method c
      | None =>
          raise (AttributeError
                   ("'BuildContext' object has no attribute '" +:+ name +:+ "'"))
      end
  end.

(** [Widget.setState], inherited by every widget class. *)
Definition Widget_setState (self : Widget) : Py unit :=
  (if context_of self is None
   then print "attempted setState() on an unbuilt widget"
   else mret ());;
  call_method (context_of self) "repaint".

End Widgets.

Arguments build : simpl never.

(** ** A small application *)

(** The builder of the specification's end-to-end example:
    [Column(children=[Text("hi"), LabelButton(label="go", onTap=f)])]. *)
Definition example_onTap : Callable :=
  {| callable_type := "function"; callable_id := 0 |}.

Definition example_builder (context : ctx_ref) : Widget :=
  Column_init AnyKey
    [Some (Text_init (Some "hi") AnyKey);
     Some (LabelButton_init AnyKey "go" "" (Some example_onTap))]
    Alignment_none.

(** The store of a process that has created nothing yet. *)
Definition empty_world : World :=
  {| stdout := []; contexts := ∅; apps := ∅; qt_events := [] |}.

(** The value of [_running] of the application at [self], if there is one. *)
Definition running_flag (self : app_ref) (w : World) : option bool :=
  _running <$> apps w !! self.

(** A statement that leaves the [_running] attribute of the application at
    [self] as it finds it. *)
Definition keeps_running {A} (self : app_ref) (m : Py A) : Prop :=
  ∀ w, running_flag self (m w).1 = running_flag self w.

(** Stand-ins for the builtins, to run the definitions on examples. *)
Definition example_hash (s : string) : Z := Z.of_nat (String.length s).
Definition example_repr (v : PyVal) : string := "'" +:+ py_str v +:+ "'".

(** ** What the table is said to show *)

(** The text of cell [(row, col)] as the specification words it:
    [str(data[row][col])] when both indices are in range, the empty string
    otherwise. *)
Definition cell_text (data : list (list PyVal)) (row col : nat) : string :=
  match data !! row with
  | Some r =>
      match r !! col with
      | Some v => py_str v
      | None => ""
      end
  | None => ""
  end.

(** The header of column [i] as the specification words it: [headers[i]]
    when [i] is in range, the column number [i + 1] otherwise. *)
Definition header_text (headers : list PyVal) (i : nat) : string :=
  match headers !! i with
  | Some h => py_str h
  | None => pretty (Z.of_nat i + 1)
  end.

(** ** Trees, callbacks and the message box *)

(** The widgets of a tree: the widget, what is below the child of an
    [Expanded] and the children of a box, and for a [Column] or [Row] what
    is below its children and below the box it holds. *)
Fixpoint descendants (w : Widget) : list Widget :=
  w :: match w with
       | Expanded _ child _ => descendants child
       | AxisAlignedBox _ children _ => concat (map descendants children)
       | Column _ children _ child | Row _ children _ child =>
           concat (map (λ c, from_option descendants [] c) children)
             ++ from_option descendants [] child
       | _ => []
       end.

Definition set_key (key : Key) (base : WidgetBase) : WidgetBase :=
  {| _key := key; _context := _context base; _hash := _hash base |}.

(** The tree with every key [k] of the widget and of the widgets declared
    below it replaced by [f k]. *)
Fixpoint map_keys (f : Key → Key) (w : Widget) : Widget :=
  match w with
  | Text b text => Text (set_key (f (_key b)) b) text
  | LabelButton b label tooltip ontap =>
      LabelButton (set_key (f (_key b)) b) label tooltip ontap
  | TextField b placeholder value onchanged hidden =>
      TextField (set_key (f (_key b)) b) placeholder value onchanged hidden
  | Expanded b child flex =>
      Expanded (set_key (f (_key b)) b) (map_keys f child) flex
  | AxisAlignedBox b children vertical =>
      AxisAlignedBox (set_key (f (_key b)) b) (map (map_keys f) children)
        vertical
  | Column b children alignment child =>
      Column (set_key (f (_key b)) b) (map (fmap (map_keys f)) children)
        alignment child
  | Row b children alignment child =>
      Row (set_key (f (_key b)) b) (map (fmap (map_keys f)) children)
        alignment child
  | TableView b rows cols headers data onselected onchanged =>
      TableView (set_key (f (_key b)) b) rows cols headers data onselected
        onchanged
  | DropdownList b items index onchanged =>
      DropdownList (set_key (f (_key b)) b) items index onchanged
  end.

(** Every [TextField] declared in the tree has an [onChanged] callback. *)
Fixpoint textfields_wired (w : Widget) : bool :=
  match w with
  | TextField _ _ _ onchanged _ => if onchanged is Some _ then true else false
  | Expanded _ child _ => textfields_wired child
  | AxisAlignedBox _ children _ => forallb textfields_wired children
  | Column _ children _ _ | Row _ children _ _ =>
      forallb (λ c, from_option textfields_wired true c) children
  | _ => true
  end.

(** A call of a callback of the application, with its arguments. *)
Inductive Call :=
| call (f : Callable) (args : list PyVal).

(** The closure [onSelect(row, col)] that [TableView.paintWidget] connects
    to [cellClicked].  It reads [self._data] when it runs, and [self._data]
    is the caller's own list: [data] is what that list holds at the time of
    the click, which need not be what it held when the table was painted. *)
Definition TableView_onSelect (onselected : option Callable)
    (data : list (list PyVal)) (row col : Z) : result (option Call) :=
  match onselected with
  | Some f =>
      text ← TableView__getdataitem data row col;
      Ok (Some (call f [VInt row; VInt col; VStr text]))
  | None => Ok None
  end.

(** The closure [onSelected(i)] that [DropdownList.paintWidget] connects to
    [currentIndexChanged]. *)
Definition DropdownList_onSelected (onchanged : option Callable)
    (items : list string) (i : Z) : result (option Call) :=
  match onchanged with
  | Some f =>
      match py_index items i with
      | Some item => Ok (Some (call f [VInt i; VStr item]))
      | None => Raise (IndexError "list index out of range")
      end
  | None => Ok None
  end.

Inductive MessageBoxIcon :=
| MessageBoxIcon_none
| MessageBoxIcon_question
| MessageBoxIcon_info
| MessageBoxIcon_warning
| MessageBoxIcon_critical.

Inductive MessageBoxButtons :=
| MessageBoxButtons_ok
| MessageBoxButtons_okCancel
| MessageBoxButtons_yesNo
| MessageBoxButtons_close.

(** The icons and standard buttons of [QMessageBox]. *)
Inductive QMessageBoxIcon := qmb_Question | qmb_Information | qmb_Warning
                           | qmb_Critical.
Inductive QMessageBoxButton := qmb_Ok | qmb_Cancel | qmb_Yes | qmb_No
                             | qmb_Close.

(** The [QMessageBox] as [showMessageBox] has set it up when it calls
    [exec_]. *)
Record QMessageBox := {
  msg_windowTitle : string;
  msg_text : string;
  msg_icon : option QMessageBoxIcon;
  msg_standardButtons : list QMessageBoxButton
}.

(** What a click on a button of the box comes to: the callback is called
    with a button name (or there is no callback), or the lookup of the name
    raises. *)
Inductive ClickOutcome :=
| Reported (bid : string) (made : option Call)
| RaisedIndexError
| RaisedKeyError.

(** The closure [foo(button)] of [showMessageBox]; [_buttons] is the value
    of [msg.buttons()], a list of button objects named by their address. *)
Definition showMessageBox_foo (buttons : MessageBoxButtons)
    (onTap : option Callable) (_buttons : list nat) (button : nat)
    : ClickOutcome :=
  match _buttons with
  | [] => RaisedIndexError
  | first :: _ =>
      let bid :=
        if bool_decide (button = first) then
          match buttons with
          | MessageBoxButtons_ok => Some "ok"
          | MessageBoxButtons_okCancel => Some "ok"
          | MessageBoxButtons_yesNo => Some "yes"
          | MessageBoxButtons_close => Some "close"
          end
        else
          match buttons with
          | MessageBoxButtons_okCancel => Some "cancel"
          | MessageBoxButtons_yesNo => Some "no"
          | _ => None
          end in
      match bid with
      | None => RaisedKeyError
      | Some bid =>
          Reported bid (if onTap is Some f then Some (call f [VStr bid])
                        else None)
      end
  end.

(** [showMessageBox], up to the call of [exec_]. *)
Definition showMessageBox (title text : string) (icon : MessageBoxIcon)
    (buttons : MessageBoxButtons) : QMessageBox :=
  {| msg_windowTitle := title;
     msg_text := text;
     msg_icon :=
       match icon with
       | MessageBoxIcon_none => None
       | MessageBoxIcon_question => Some qmb_Question
       | MessageBoxIcon_info => Some qmb_Information
       | MessageBoxIcon_warning => Some qmb_Warning
       | MessageBoxIcon_critical => Some qmb_Critical
       end;
     msg_standardButtons :=
       match buttons with
       | MessageBoxButtons_ok => [qmb_Ok]
       | MessageBoxButtons_okCancel => [qmb_Ok; qmb_Cancel]
       | MessageBoxButtons_yesNo => [qmb_Yes; qmb_No]
       | MessageBoxButtons_close => [qmb_Close]
       end |}.

(** The button names that belong to a kind of box. *)
Definition button_names (buttons : MessageBoxButtons) : list string :=
  match buttons with
  | MessageBoxButtons_ok => ["ok"]
  | MessageBoxButtons_okCancel => ["ok"; "cancel"]
  | MessageBoxButtons_yesNo => ["yes"; "no"]
  | MessageBoxButtons_close => ["close"]
  end.

(** *** Example stores *)

(** The application [Application(builder=example_builder)] as [__init__]
    leaves it in a fresh process, and the store that holds it. *)
Definition example_app : Application :=
  {| app_context := 0%nat; _builder := Some example_builder;
     _title := "declPyQt5 Application"; _state := None; _running := false;
     _widget := None; app_application := false; _layout := None;
     _windowsize := (None, None) |}.

Definition example_world : World :=
  (Application_init None (Some example_builder) "declPyQt5 Application"
     None None empty_world).1.

(** A builder whose tree cannot be painted: a [TextField] with the default
    [onChanged=None] beside a [Text]. *)
Definition unwired_builder (context : ctx_ref) : Widget :=
  Row_init AnyKey
    [Some (Text_init (Some "name") AnyKey);
     Some (TextField_init AnyKey "" "" false None)]
    Alignment_start.

Definition unwired_app : Application :=
  {| app_context := 0%nat; _builder := Some unwired_builder;
     _title := "form"; _state := None; _running := false;
     _widget := None; app_application := false; _layout := None;
     _windowsize := (Some 640, Some 480) |}.

Definition unwired_world : World :=
  (Application_init None (Some unwired_builder) "form" (Some 640) (Some 480)
     empty_world).1.

(** [Application()] with the default [builder=None], and the store that
    holds it. *)
Definition nobuilder_app : Application :=
  {| app_context := 0%nat; _builder := None;
     _title := "declPyQt5 Application"; _state := None; _running := false;
     _widget := None; app_application := false; _layout := None;
     _windowsize := (None, None) |}.

Definition nobuilder_world : World :=
  (Application_init None None "declPyQt5 Application" None None
     empty_world).1.

(** A started application that shows an element painted from an earlier
    tree, [Text("old")], while its builder now returns the example tree. *)
Definition stale_app : Application :=
  {| app_context := 0%nat; _builder := Some example_builder;
     _title := "declPyQt5 Application";
     _state := Some (build example_hash example_repr 0%nat
                       (Text_init (Some "old") AnyKey));
     _running := false;
     _widget := Some {| window_has_layout := true;
                        windowTitle := "declPyQt5 Application";
                        window_size := None; window_visible := true |};
     app_application := true; _layout := Some [QLabel "old"];
     _windowsize := (None, None) |}.

Definition stale_world : World :=
  {| stdout := []; contexts := {[ 0%nat := BuildContext_init (Some 0%nat) ]};
     apps := {[ 0%nat := stale_app ]}; qt_events := [] |}.

(** * Properties *)

(** ** Construction of boxes *)

Lemma spacer_init :
  Expanded_init AnyKey (Some (Text_init (Some "") AnyKey)) (VInt 1) = Ok spacer.
Proof. reflexivity. Qed.

(** The loop that looks for an [Expanded] is an existence test on the
    children that are not [None]. *)
Lemma AxisAlignedBox_has_expanded_spec children :
  AxisAlignedBox_has_expanded children = true
  ↔ ∃ child, Some child ∈ children ∧ is_Expanded child = true.
Proof.
  unfold AxisAlignedBox_has_expanded.
  assert (∀ acc,
    foldl (λ has_expanded child,
             match child with
             | Some child => if is_Expanded child then true else has_expanded
             | None => has_expanded
             end) acc children = true
    ↔ acc = true ∨ ∃ child, Some child ∈ children ∧ is_Expanded child = true)
    as Hgen.
  { induction children as [|c cs IH]; intros acc; simpl.
    - split; [auto|]. intros [?|(x & Hx & _)]; [done|]. inversion Hx.
    - rewrite IH. split.
      + intros [Hacc|(x & Hx & Hex)].
        * destruct c as [c|]; [|auto].
          destruct (is_Expanded c) eqn:Hc; [|auto].
          right. exists c. split; [left|done].
        * right. exists x. split; [by right|done].
      + intros [->|(x & Hx & Hex)].
        * left. destruct c as [c|]; [|done]. by destruct (is_Expanded c).
        * apply elem_of_cons in Hx as [<-|Hx].
          -- left. by rewrite Hex.
          -- right. eauto. }
  rewrite Hgen. split; [|auto]. by intros [?|?].
Qed.

(** The loop that adds the children keeps those that are not [None]. *)
Lemma add_children_spec (children : list (option Widget)) (acc : list Widget) :
  foldl (λ acc child,
           match child with
           | Some child => acc ++ [child]
           | None => acc
           end) acc children = acc ++ omap id children.
Proof.
  revert acc. induction children as [|[c|] cs IH]; intros acc; simpl.
  - by rewrite app_nil_r.
  - rewrite IH. by rewrite <- app_assoc.
  - apply IH.
Qed.

Lemma AxisAlignedBox_init_children key children vertical alignment :
  AxisAlignedBox_init key children vertical alignment
  = AxisAlignedBox (Widget_init key)
      (spacers_before (AxisAlignedBox_has_expanded children) alignment
         ++ omap id children
         ++ spacers_after (AxisAlignedBox_has_expanded children) alignment)
      vertical.
Proof.
  unfold AxisAlignedBox_init, spacers_before, spacers_after.
  rewrite add_children_spec.
  destruct (AxisAlignedBox_has_expanded children), alignment; simpl;
    by rewrite ?app_nil_r.
Qed.

(** ** The recursion of [build] *)

Section Build.

Context (hash : string → Z) (repr : PyVal → string).

Lemma height_pos w : (1 ≤ height w)%nat.
Proof. destruct w; simpl; lia. Qed.

Lemma height_child (children : list Widget) child :
  child ∈ children → (height child ≤ max_list (map height children))%nat.
Proof.
  intros Hin. apply max_list_elem_of_le.
  apply list_elem_of_fmap. by exists child.
Qed.

Lemma height_option_child (children : list (option Widget)) child :
  Some child ∈ children
  → (height child
     ≤ max_list (map (λ c, from_option height 0%nat c) children))%nat.
Proof.
  intros Hin.
  change (height child) with (from_option height 0%nat (Some child)).
  apply max_list_elem_of_le. apply list_elem_of_fmap. by exists (Some child).
Qed.

Lemma height_AxisAlignedBox_init key children vertical alignment :
  (height (AxisAlignedBox_init key children vertical alignment)
   ≤ 3 + max_list (map (λ c, from_option height 0%nat c) children))%nat.
Proof.
  rewrite AxisAlignedBox_init_children.
  set (m := max_list (map (λ c, from_option height 0%nat c) children)).
  cbn [height].
  assert (∀ l : list Widget,
            (∀ x, x ∈ l → (height x ≤ 2 + m)%nat)
            → (max_list (map height l) ≤ 2 + m)%nat) as Hmax.
  { induction l as [|x l IH]; intros Hl; simpl; [lia|].
    pose proof (Hl x (list_elem_of_here _ _)).
    assert (max_list (map height l) ≤ 2 + m)%nat
      by (apply IH; intros; apply Hl; by right).
    lia. }
  assert (height spacer = 2%nat) as Hsp by reflexivity.
  enough (max_list
            (map height
               (spacers_before (AxisAlignedBox_has_expanded children) alignment
                  ++ omap id children
                  ++ spacers_after (AxisAlignedBox_has_expanded children)
                       alignment)) ≤ 2 + m)%nat by lia.
  apply Hmax. intros x Hx.
  rewrite !elem_of_app in Hx. destruct Hx as [Hx|[Hx|Hx]].
  - unfold spacers_before in Hx.
    destruct (AxisAlignedBox_has_expanded children), alignment;
      try (by inversion Hx);
      apply list_elem_of_singleton in Hx as ->; rewrite Hsp; lia.
  - apply list_elem_of_omap in Hx as (o & Ho & Hid). simpl in Hid. subst o.
    pose proof (height_option_child children x Ho). unfold m. lia.
  - unfold spacers_after in Hx.
    destruct (AxisAlignedBox_has_expanded children), alignment;
      try (by inversion Hx);
      apply list_elem_of_singleton in Hx as ->; rewrite Hsp; lia.
Qed.

(** [build_step] only calls [rec] on widgets of a smaller depth. *)
Lemma build_step_ext rec1 rec2 context w :
  (∀ x, (height x < height w)%nat → rec1 x = rec2 x)
  → build_step hash repr rec1 context w = build_step hash repr rec2 context w.
Proof.
  intros Hrec. destruct w as [| | |b c f|b cs v|b cs al ch|b cs al ch| |];
    simpl in *; try reflexivity.
  - rewrite (Hrec c) by lia. reflexivity.
  - assert (map rec1 cs = map rec2 cs) as ->; [|reflexivity].
    apply map_ext_in. intros x Hx. apply Hrec.
    apply list_elem_of_In, height_child in Hx. lia.
  - pose proof (height_AxisAlignedBox_init AnyKey cs true al).
    rewrite (Hrec (AxisAlignedBox_init AnyKey cs true al)) by lia.
    assert (map (fmap rec1) cs = map (fmap rec2) cs) as ->; [|reflexivity].
    apply map_ext_in. intros [x|] Hx; [|reflexivity]. simpl. f_equal.
    apply Hrec. apply list_elem_of_In, height_option_child in Hx. lia.
  - pose proof (height_AxisAlignedBox_init AnyKey cs false al).
    rewrite (Hrec (AxisAlignedBox_init AnyKey cs false al)) by lia.
    assert (map (fmap rec1) cs = map (fmap rec2) cs) as ->; [|reflexivity].
    apply map_ext_in. intros [x|] Hx; [|reflexivity]. simpl. f_equal.
    apply Hrec. apply list_elem_of_In, height_option_child in Hx. lia.
Qed.

(** Any fuel from the depth of the widget on gives the same result. *)
Lemma build_fuel_enough n m context w :
  (height w ≤ n)%nat → (height w ≤ m)%nat
  → build_fuel hash repr n context w = build_fuel hash repr m context w.
Proof.
  revert m w. induction n as [|n IH]; intros m w Hn Hm.
  { pose proof (height_pos w). lia. }
  destruct m as [|m]; [pose proof (height_pos w); lia|].
  simpl. apply build_step_ext. intros x Hx. apply IH; lia.
Qed.

(** [build] satisfies the recursive equation of the methods: the body of the
    class's [build] with [child.build(context)] for the recursive calls. *)
Lemma build_unfold context w :
  build hash repr context w
  = build_step hash repr (build hash repr context) context w.
Proof.
  unfold build at 1.
  pose proof (height_pos w).
  destruct (height w) as [|n] eqn:Hh; [lia|]. simpl.
  apply build_step_ext. intros x Hx. unfold build.
  apply build_fuel_enough; lia.
Qed.

End Build.

(** ** Keys *)

Lemma py_val_eq_refl v : py_val_eq v v = true.
Proof. destruct v; simpl; by rewrite ?bool_decide_eq_true. Qed.


(** Written [Key() == k] the comparison is decided by [k]'s class when [k]
    is a [ValueKey] or a [UniqueKey], and is then false; the method
    [Key().__eq__(k)] above is not reached. *)
Remark Key_eq_operator_subclass_first :
  Key_eq_operator AnyKey AnyKey = true
  ∧ (∀ v, Key_eq_operator AnyKey (ValueKey v) = false)
  ∧ (∀ h, Key_eq_operator AnyKey (UniqueKey h) = false)
  ∧ (∀ a b, a ≠ AnyKey → Key_eq_operator a b = Key___eq__ a b).
Proof. repeat split; try done. by intros [] []. Qed.




(** ** Construction of [Expanded] *)

(** C5. [Expanded(child, flex)] raises exactly when [child] is [None] or
    [flex] is not a positive integer, and otherwise yields the widget with
    that child and flex; so [Expanded(child=None)] and
    [Expanded(child=X, flex=0)] raise and [Expanded(child=X, flex=1)]
    succeeds for every widget [X]. *)
Theorem Expanded_init_raises_iff :
  (∀ key child flex,
     raises (Expanded_init key child flex)
     ↔ child = None ∨ ¬ positive_integer flex)
  ∧ (∀ key child flex,
       is_Ok (Expanded_init key child flex)
       ↔ (∃ X, child = Some X) ∧ positive_integer flex)
  ∧ (∀ key flex, raises (Expanded_init key None flex))
  ∧ (∀ key X, raises (Expanded_init key (Some X) (VInt 0)))
  ∧ (∀ key X,
       Expanded_init key (Some X) (VInt 1)
       = Ok (Expanded (Widget_init key) X 1)).
Proof.
  assert (∀ key child flex,
    (is_Ok (Expanded_init key child flex)
     ∧ (∃ X, child = Some X) ∧ positive_integer flex)
    ∨ (raises (Expanded_init key child flex)
       ∧ (child = None ∨ ¬ positive_integer flex))) as Hcases.
  { intros key [X|] flex; unfold Expanded_init, positive_integer.
    - destruct (py_int_value flex) as [n|] eqn:Hflex.
      + case_bool_decide.
        * right. split; [by eexists|]. right. intros (m & [= <-] & ?). lia.
        * left. split; [by eexists|]. split; [by eexists|].
          exists n. split; [done|lia].
      + right. split; [by eexists|]. right. by intros (m & [=] & ?).
    - right. split; [by eexists|]. by left. }
  assert (∀ A (r : result A), is_Ok r → raises r → False) as Hexcl.
  { intros A r [a ->] [e [=]]. }
  repeat split.
  - intros Hr. destruct (Hcases key child flex) as [[Hok _]|[_ ?]]; [|done].
    destruct (Hexcl _ _ Hok Hr).
  - intros Hc. destruct (Hcases key child flex) as [[_ [[X ->] Hp]]|[? _]];
      [|done]. by destruct Hc as [[=]|Hn].
  - destruct (Hcases key child flex) as [[_ [? _]]|[Hr _]]; [done|].
    destruct (Hexcl _ _ H Hr).
  - destruct (Hcases key child flex) as [[_ [_ ?]]|[Hr _]]; [done|].
    destruct (Hexcl _ _ H Hr).
  - intros [[X ->] Hp].
    destruct (Hcases key (Some X) flex) as [[? _]|[_ [[=]|Hn]]]; done.
  - by eexists.
  - by eexists.
Qed.

Lemma Expanded_init_raises_iff_witness :
  (raises (Expanded_init AnyKey (Some (Text_init (Some "x") AnyKey)) (VInt 0))
   ↔ Some (Text_init (Some "x") AnyKey) = None ∨ ¬ positive_integer (VInt 0))
  ∧ (is_Ok (Expanded_init AnyKey (Some (Text_init (Some "x") AnyKey)) (VInt 3))
     ↔ (∃ X, Some (Text_init (Some "x") AnyKey) = Some X)
       ∧ positive_integer (VInt 3)).
Proof.
  split.
  - apply Expanded_init_raises_iff.
  - apply Expanded_init_raises_iff.
Defined.

(** ** Painting fields and buttons *)

(** C9. [TextField.paintWidget] connects [onChanged] without a test, so it
    raises when the callback is [None] (the default) and succeeds exactly
    when there is a callback; [LabelButton.paintWidget] tests [onTap] first
    and succeeds with [onTap=None], connecting nothing. *)
Theorem TextField_paint_needs_onChanged :
  (∀ base placeholder value hidden,
     raises (paintWidget (TextField base placeholder value None hidden)))
  ∧ (∀ key placeholder value hidden,
       raises (paintWidget (TextField_init key placeholder value hidden None)))
  ∧ (∀ base placeholder value onchanged hidden,
       is_Ok (paintWidget (TextField base placeholder value onchanged hidden))
       ↔ onchanged ≠ None)
  ∧ (∀ base label tooltip,
       paintWidget (LabelButton base label tooltip None)
       = Ok (QPushButton label tooltip [])).
Proof.
  repeat split.
  - by eexists.
  - by eexists.
  - destruct onchanged; [done|]. by intros [? [=]].
  - destruct onchanged as [f|]; [|done]. intros _. by eexists.
Qed.

Lemma TextField_paint_needs_onChanged_witness :
  is_Ok (paintWidget
           (TextField (Widget_init AnyKey) "name" "" (Some example_onTap) false))
  ↔ Some example_onTap ≠ None.
Proof. apply TextField_paint_needs_onChanged. Defined.

(** ** Boxes: children, spacers and stretch factors *)

Lemma AxisAlignedBox_has_expanded_false children :
  (∀ child, Some child ∈ children → is_Expanded child = false)
  → AxisAlignedBox_has_expanded children = false.
Proof.
  intros Hno. apply not_true_is_false.
  intros (child & Hin & Hex)%AxisAlignedBox_has_expanded_spec.
  rewrite (Hno child Hin) in Hex. done.
Qed.

Lemma omap_id_Some (children : list Widget) :
  omap id (Some <$> children) = children.
Proof. induction children as [|c cs IH]; simpl; [done|]. f_equal. exact IH. Qed.

Lemma AxisAlignedBox_has_expanded_omap children :
  AxisAlignedBox_has_expanded (Some <$> omap id children)
  = AxisAlignedBox_has_expanded children.
Proof.
  apply eq_true_iff_eq. rewrite !AxisAlignedBox_has_expanded_spec.
  split; intros (child & Hin & Hex); exists child; (split; [|done]).
  - apply list_elem_of_fmap in Hin as (x & [= <-] & Hx).
    apply list_elem_of_omap in Hx as (o & Ho & Hid). simpl in Hid. by subst.
  - apply list_elem_of_fmap. exists child. split; [done|].
    apply list_elem_of_omap. by exists (Some child).
Qed.

(** C10. A [None] among the children handed to [AxisAlignedBox] is dropped:
    the stored list is the children that are not [None], in their order,
    between the spacers; whether an [Expanded] is present is decided on the
    children that are not [None]; the box is the one built from the list
    without its [None] entries, and construction returns a box for every
    list.  A built [Column] or [Row] holds the box made from its children
    this way. *)
Theorem AxisAlignedBox_init_drops_None hash repr :
  (∀ key children vertical alignment,
     let has_expanded := AxisAlignedBox_has_expanded children in
     AxisAlignedBox_init key children vertical alignment
     = AxisAlignedBox (Widget_init key)
         (spacers_before has_expanded alignment
            ++ omap id children
            ++ spacers_after has_expanded alignment) vertical)
  ∧ (∀ children,
       AxisAlignedBox_has_expanded children = true
       ↔ ∃ child, Some child ∈ children ∧ is_Expanded child = true)
  ∧ (∀ key children vertical alignment,
       AxisAlignedBox_init key children vertical alignment
       = AxisAlignedBox_init key (Some <$> omap id children) vertical alignment)
  ∧ (∀ context base children alignment child,
       adapter_child
         (build hash repr context (Column base children alignment child))
       = Some (build hash repr context
                 (AxisAlignedBox_init AnyKey (Some <$> omap id children)
                    true alignment)))
  ∧ (∀ context base children alignment child,
       adapter_child
         (build hash repr context (Row base children alignment child))
       = Some (build hash repr context
                 (AxisAlignedBox_init AnyKey (Some <$> omap id children)
                    false alignment))).
Proof.
  assert (∀ key children vertical alignment,
       AxisAlignedBox_init key children vertical alignment
       = AxisAlignedBox_init key (Some <$> omap id children) vertical alignment)
    as Hdrop.
  { intros. rewrite !AxisAlignedBox_init_children.
    by rewrite AxisAlignedBox_has_expanded_omap, omap_id_Some. }
  split; [|split; [|split; [|split]]].
  - intros. apply AxisAlignedBox_init_children.
  - apply AxisAlignedBox_has_expanded_spec.
  - apply Hdrop.
  - intros. rewrite build_unfold. simpl. by rewrite <- Hdrop.
  - intros. rewrite build_unfold. simpl. by rewrite <- Hdrop.
Qed.

Lemma AxisAlignedBox_init_drops_None_witness :
  AxisAlignedBox_has_expanded
    [None; Some (Text_init (Some "a") AnyKey); None; Some spacer] = true
  ↔ ∃ child,
      Some child ∈ [None; Some (Text_init (Some "a") AnyKey); None; Some spacer]
      ∧ is_Expanded child = true.
Proof.
  apply (AxisAlignedBox_init_drops_None example_hash example_repr).
Defined.

Lemma setStretches_lookup flexes (layout : list (QWidget * Z)) i :
  setStretches flexes layout !! i
  = (λ slot, (slot.1, default slot.2 (flexes !! i))) <$> layout !! i.
Proof.
  unfold setStretches. revert i.
  induction flexes as [|flex flexes IH] using rev_ind; intros i.
  - simpl. destruct (layout !! i) as [[w s]|]; done.
  - rewrite imap_app, foldl_app. simpl. rewrite Nat.add_0_r.
    unfold setStretch at 1.
    destruct (decide (i = length flexes)) as [->|Hne].
    + rewrite list_lookup_alter_eq, IH.
      rewrite lookup_app_r, Nat.sub_diag by lia. simpl.
      rewrite (lookup_ge_None_2 flexes) by lia.
      destruct (layout !! length flexes) as [[w s]|]; done.
    + rewrite list_lookup_alter_ne, IH by done.
      destruct (decide (i < length flexes)%nat).
      * by rewrite lookup_app_l by lia.
      * rewrite (lookup_ge_None_2 (flexes ++ [flex])), (lookup_ge_None_2 flexes);
          [done|lia|rewrite length_app; simpl; lia].
Qed.

(** After the second loop every slot has the stretch collected for it. *)
Lemma setStretches_zip flexes (widgets : list QWidget) :
  length widgets = length flexes
  → setStretches flexes ((λ w, (w, 0)) <$> widgets) = zip widgets flexes.
Proof.
  intros Hlen. apply list_eq. intros i.
  rewrite setStretches_lookup, list_lookup_fmap, lookup_zip_with.
  destruct (widgets !! i) as [w|] eqn:Hw; simpl; [|done].
  destruct (flexes !! i) as [f|] eqn:Hf; simpl; [done|].
  apply lookup_lt_Some in Hw. apply lookup_ge_None in Hf. lia.
Qed.

(** The first loop, when every child paints. *)
Lemma AxisAlignedBox_paint_children_Ok paint children widgets layout flexes :
  Forall2 (λ child widget, paint child = Ok widget) children widgets
  → AxisAlignedBox_paint_children paint children (layout, flexes)
    = Ok (layout ++ ((λ w, (w, 0)) <$> widgets),
          flexes ++ (child_flex <$> children)).
Proof.
  intros Hall. revert layout flexes.
  induction Hall as [|child widget children widgets Hp _ IH];
    intros layout flexes; simpl.
  - by rewrite !app_nil_r.
  - rewrite Hp. simpl. rewrite IH. unfold addWidget.
    by rewrite <- !app_assoc.
Qed.

Lemma AxisAlignedBox_paint base children vertical widgets :
  Forall2 (λ child widget, paintWidget child = Ok widget) children widgets
  → paintWidget (AxisAlignedBox base children vertical)
    = Ok (QBox vertical (zip widgets (child_flex <$> children))).
Proof.
  intros Hall. simpl.
  rewrite (AxisAlignedBox_paint_children_Ok _ _ _ _ _ Hall). simpl.
  rewrite setStretches_zip; [done|].
  rewrite length_fmap. symmetry. by eapply Forall2_length.
Qed.

(** C3. Without an [Expanded] among the declared children the box gets its
    spacers by alignment: none for [none], one after for [start], one before
    and one after for [center], one before for [end]; with an [Expanded]
    among them it gets none.  A spacer is an [Expanded] of flex 1 around an
    empty [Text].  When the children paint, the painted box has one slot per
    child, in order, whose stretch is the child's flex if the child is an
    [Expanded] and 0 otherwise.  So a centred box of [A] and [B] paints the
    four slots spacer, [A], [B], spacer with stretches 1, 0, 0, 1, and a box
    of [Expanded(A, flex=2)] aligned at the start paints the single slot of
    [A] with stretch 2. *)
Theorem AxisAlignedBox_spacers_and_stretches :
  (∀ key children vertical alignment,
     (∀ child, Some child ∈ children → is_Expanded child = false)
     → AxisAlignedBox_init key children vertical alignment
       = AxisAlignedBox (Widget_init key)
           (match alignment with
            | Alignment_none => omap id children
            | Alignment_start => omap id children ++ [spacer]
            | Alignment_center => [spacer] ++ omap id children ++ [spacer]
            | Alignment_end => [spacer] ++ omap id children
            end) vertical)
  ∧ (∀ key children vertical alignment child,
       Some child ∈ children → is_Expanded child = true
       → AxisAlignedBox_init key children vertical alignment
         = AxisAlignedBox (Widget_init key) (omap id children) vertical)
  ∧ (Expanded_init AnyKey (Some (Text_init (Some "") AnyKey)) (VInt 1)
       = Ok spacer
     ∧ child_flex spacer = 1 ∧ paintWidget spacer = Ok (QLabel ""))
  ∧ (∀ base children vertical widgets,
       Forall2 (λ child widget, paintWidget child = Ok widget) children widgets
       → paintWidget (AxisAlignedBox base children vertical)
         = Ok (QBox vertical (zip widgets (child_flex <$> children))))
  ∧ (∀ key A B vertical a b,
       is_Expanded A = false → is_Expanded B = false
       → paintWidget A = Ok a → paintWidget B = Ok b
       → paintWidget
           (AxisAlignedBox_init key [Some A; Some B] vertical Alignment_center)
         = Ok (QBox vertical [(QLabel "", 1); (a, 0); (b, 0); (QLabel "", 1)]))
  ∧ (∀ key key' A vertical a,
       paintWidget A = Ok a
       → ∃ E, Expanded_init key' (Some A) (VInt 2) = Ok E
              ∧ paintWidget
                  (AxisAlignedBox_init key [Some E] vertical Alignment_start)
                = Ok (QBox vertical [(a, 2)])).
Proof.
  split; [|split; [|split; [|split; [|split]]]].
  - intros key children vertical alignment Hno.
    rewrite AxisAlignedBox_init_children.
    rewrite (AxisAlignedBox_has_expanded_false _ Hno).
    destruct alignment; simpl; by rewrite ?app_nil_r.
  - intros key children vertical alignment child Hin Hex.
    rewrite AxisAlignedBox_init_children.
    assert (AxisAlignedBox_has_expanded children = true) as ->.
    { apply AxisAlignedBox_has_expanded_spec. eauto. }
    simpl. by rewrite app_nil_r.
  - done.
  - apply AxisAlignedBox_paint.
  - intros key A B vertical a b HA HB Ha Hb.
    rewrite AxisAlignedBox_init_children.
    assert (AxisAlignedBox_has_expanded [Some A; Some B] = false) as ->.
    { unfold AxisAlignedBox_has_expanded. simpl. by rewrite HA, HB. }
    simpl spacers_before. simpl spacers_after. simpl app.
    rewrite (AxisAlignedBox_paint _ _ _ [QLabel ""; a; b; QLabel ""]).
    + simpl. destruct A, B; done.
    + repeat constructor; done.
  - intros key key' A vertical a Ha. eexists. split; [reflexivity|].
    rewrite AxisAlignedBox_init_children. simpl. rewrite Ha. reflexivity.
Qed.

Lemma AxisAlignedBox_spacers_and_stretches_witness :
  is_Expanded (Text_init (Some "A") AnyKey) = false
  ∧ is_Expanded (LabelButton_init AnyKey "B" "" None) = false
  ∧ paintWidget (Text_init (Some "A") AnyKey) = Ok (QLabel "A")
  ∧ paintWidget (LabelButton_init AnyKey "B" "" None)
    = Ok (QPushButton "B" "" [])
  ∧ paintWidget
      (AxisAlignedBox_init AnyKey
         [Some (Text_init (Some "A") AnyKey);
          Some (LabelButton_init AnyKey "B" "" None)] true Alignment_center)
    = Ok (QBox true [(QLabel "", 1); (QLabel "A", 0);
                     (QPushButton "B" "" [], 0); (QLabel "", 1)]).
Proof.
  split; [reflexivity|]. split; [reflexivity|].
  split; [reflexivity|]. split; [reflexivity|].
  apply AxisAlignedBox_spacers_and_stretches; reflexivity.
Defined.

(** ** Column and Row *)

Lemma context_of_build hash repr context w :
  context_of (build hash repr context w) = Some context.
Proof. rewrite build_unfold. by destruct w. Qed.

Lemma build_Column hash repr context base children alignment child :
  build hash repr context (Column base children alignment child)
  = let box := build hash repr context
                 (AxisAlignedBox_init AnyKey children true alignment) in
    Column (set_hash (hash ("Column(" +:+ pretty (hash_of box) +:+ ")"))
              (Widget_build context base))
      (map (fmap (build hash repr context)) children) alignment (Some box).
Proof. rewrite build_unfold. reflexivity. Qed.

Lemma build_Row hash repr context base children alignment child :
  build hash repr context (Row base children alignment child)
  = let box := build hash repr context
                 (AxisAlignedBox_init AnyKey children false alignment) in
    Row (set_hash (hash ("Row(" +:+ pretty (hash_of box) +:+ ")"))
           (Widget_build context base))
      (map (fmap (build hash repr context)) children) alignment (Some box).
Proof. rewrite build_unfold. reflexivity. Qed.

(** C8. A built [Column] holds as [_child] the built
    [AxisAlignedBox(children, vertical=True, alignment)]: its [build] builds
    that box with the same context and wraps the box's hash, and its
    [paintWidget] returns what the box's [paintWidget] returns.  [Row] does
    the same with [vertical=False]. *)
Theorem Column_Row_delegate hash repr :
  (∀ context key children alignment,
     let column := build hash repr context (Column_init key children alignment) in
     let box := build hash repr context
                  (AxisAlignedBox_init AnyKey children true alignment) in
     adapter_child column = Some box
     ∧ paintWidget column = paintWidget box
     ∧ hash_of column = hash ("Column(" +:+ pretty (hash_of box) +:+ ")")
     ∧ context_of column = Some context
     ∧ context_of box = Some context)
  ∧ (∀ context key children alignment,
       let row := build hash repr context (Row_init key children alignment) in
       let box := build hash repr context
                    (AxisAlignedBox_init AnyKey children false alignment) in
       adapter_child row = Some box
       ∧ paintWidget row = paintWidget box
       ∧ hash_of row = hash ("Row(" +:+ pretty (hash_of box) +:+ ")")
       ∧ context_of row = Some context
       ∧ context_of box = Some context).
Proof.
  split; intros context key children alignment;
    unfold Column_init, Row_init; rewrite ?build_Column, ?build_Row;
    cbv zeta; repeat split; apply context_of_build.
Qed.

(** ** Tables *)

Lemma py_index_nonneg {A} (xs : list A) (i : Z) :
  0 ≤ i → i < Z.of_nat (length xs) → py_index xs i = xs !! Z.to_nat i.
Proof.
  intros ??. unfold py_index. rewrite bool_decide_eq_true_2 by lia. done.
Qed.

Lemma TableView__getdataitem_nonneg data row col :
  0 ≤ row → 0 ≤ col
  → TableView__getdataitem data row col
    = Ok (cell_text data (Z.to_nat row) (Z.to_nat col)).
Proof.
  intros Hrow Hcol. unfold TableView__getdataitem, cell_text.
  case_bool_decide as Hr.
  - rewrite py_index_nonneg by lia.
    destruct (data !! Z.to_nat row) as [r|] eqn:Hdata.
    + case_bool_decide as Hc.
      * rewrite py_index_nonneg by lia.
        destruct (r !! Z.to_nat col) as [v|] eqn:Hv; [done|].
        apply lookup_ge_None in Hv. lia.
      * rewrite (lookup_ge_None_2 r) by lia. done.
    + apply lookup_ge_None in Hdata. lia.
  - rewrite (lookup_ge_None_2 data) by lia. done.
Qed.

Lemma TableView_header_nonneg headers i :
  0 ≤ i → TableView_header headers i = Ok (header_text headers (Z.to_nat i)).
Proof.
  intros Hi. unfold TableView_header, header_text.
  case_bool_decide as Hr.
  - rewrite py_index_nonneg by lia.
    destruct (headers !! Z.to_nat i) as [h|] eqn:Hh; [done|].
    apply lookup_ge_None in Hh. lia.
  - rewrite (lookup_ge_None_2 headers) by lia. simpl.
    by rewrite Z2Nat.id by lia.
Qed.

(** A loop whose body does not raise on the elements it meets is a fold. *)
Lemma for_each_Ok {A S} (body : S → A → result S) (step : S → A → S) xs s :
  (∀ s x, x ∈ xs → body s x = Ok (step s x))
  → for_each body xs s = Ok (foldl step s xs).
Proof.
  revert s. induction xs as [|x xs IH]; intros s Hbody; simpl; [done|].
  rewrite Hbody by left. simpl. apply IH. intros. apply Hbody. by right.
Qed.

(** A loop of [setItem]/[setHorizontalHeaderItem] calls over distinct keys
    leaves at each key it met the value computed for it. *)
Lemma foldl_insert_lookup `{Countable K} {V} (f : K → V) (ks : list K)
    (m : gmap K V) k :
  foldl (λ m k, <[k := f k]> m) m ks !! k
  = if decide (k ∈ ks) then Some (f k) else m !! k.
Proof.
  revert m. induction ks as [|k' ks IH]; intros m; cbn [foldl].
  - rewrite decide_False; [done|]. by intros ?%elem_of_nil.
  - rewrite IH. destruct (decide (k ∈ ks)) as [Hin|Hnin].
    + rewrite decide_True; [done|]. by right.
    + destruct (decide (k = k')) as [->|Hne].
      * rewrite decide_True by left. by rewrite lookup_insert_eq.
      * rewrite decide_False.
        -- by rewrite lookup_insert_ne.
        -- by intros [?|?]%elem_of_cons.
Qed.

Lemma foldl_insert_rows_lookup {V} (f : Z → Z → V) (rows cols : list Z)
    (m : gmap (Z * Z) V) row col :
  foldl (λ m row, foldl (λ m col, <[(row, col) := f row col]> m) m cols)
        m rows !! (row, col)
  = if decide (row ∈ rows ∧ col ∈ cols) then Some (f row col)
    else m !! (row, col).
Proof.
  assert (∀ r (m : gmap (Z * Z) V),
    foldl (λ m col, <[(r, col) := f r col]> m) m cols !! (row, col)
    = if decide (r = row ∧ col ∈ cols) then Some (f row col)
      else m !! (row, col)) as Hinner.
  { intros r. induction cols as [|c cs IH]; intros m'; cbn [foldl].
    - rewrite decide_False; [done|]. intros [_ ?%elem_of_nil]. done.
    - rewrite IH. destruct (decide (r = row ∧ col ∈ cs)) as [[-> Hin]|Hnin].
      + rewrite decide_True; [done|]. split; [done|by right].
      + destruct (decide ((r, c) = (row, col))) as [[= -> ->]|Hne].
        * rewrite decide_True by (split; [done|left]).
          by rewrite lookup_insert_eq.
        * rewrite lookup_insert_ne by done.
          rewrite decide_False; [done|].
          intros [-> [->|?]%elem_of_cons]; [done|]. by apply Hnin. }
  revert m. induction rows as [|r rs IH]; intros m; cbn [foldl].
  - rewrite decide_False; [done|]. intros [?%elem_of_nil _]. done.
  - rewrite IH, Hinner.
    destruct (decide (row ∈ rs ∧ col ∈ cols)) as [[Hr Hc]|Hnin].
    + rewrite decide_True; [done|]. split; [by right|done].
    + destruct (decide (r = row ∧ col ∈ cols)) as [[-> Hc]|Hne].
      * rewrite decide_True; [done|]. split; [left|done].
      * rewrite decide_False; [done|].
        intros [[->|?]%elem_of_cons ?]; [by apply Hne|by apply Hnin].
Qed.

Lemma elem_of_range n i : i ∈ range n ↔ 0 ≤ i < n.
Proof. unfold range. rewrite elem_of_seqZ. lia. Qed.

Lemma TableView_paint base rows cols headers data onselected onchanged :
  paintWidget (TableView base rows cols headers data onselected onchanged)
  = Ok (QTableWidget rows cols
          (foldl (λ items row,
                    foldl (λ items col,
                             <[(row, col) :=
                                 cell_text data (Z.to_nat row) (Z.to_nat col)]>
                               items)
                          items (range cols))
                 ∅ (range rows))
          (foldl (λ hheader i,
                    <[i := header_text headers (Z.to_nat i)]> hheader)
                 ∅ (range cols))
          [SlotTableOnSelect onselected data] [SlotTableOnChanged onchanged]).
Proof.
  cbn [paintWidget].
  match goal with
  | |- context [for_each ?body (range rows) ?s] =>
      rewrite (for_each_Ok body (λ items row,
                 foldl (λ items col,
                          <[(row, col) :=
                              cell_text data (Z.to_nat row) (Z.to_nat col)]>
                            items)
                       items (range cols)) (range rows) s)
  end.
  - cbn [mbind result_bind].
    match goal with
    | |- context [for_each ?body (range cols) ?s] =>
        rewrite (for_each_Ok body (λ hheader i,
                   <[i := header_text headers (Z.to_nat i)]> hheader)
                   (range cols) s)
    end.
    + reflexivity.
    + intros hheader i Hi%elem_of_range.
      by rewrite TableView_header_nonneg by lia.
  - intros items row Hrow%elem_of_range.
    apply for_each_Ok. intros items' col Hcol%elem_of_range.
    by rewrite TableView__getdataitem_nonneg by lia.
Qed.

(** C6. Painting a [TableView] never raises.  The painted grid holds at
    every cell [(row, col)] of its [rows] by [columns] the text
    [str(data[row][col])] when [row] and [col] are in range of the data and
    the empty string otherwise, and holds nothing elsewhere; the header of
    column [i] is [headers[i]] when [i] is in range of the headers and
    [str(i + 1)] otherwise.  With [rows=2], [columns=2] and
    [data=[["a","b"]]] the cells are "a", "b" in row 0 and empty in row 1. *)
Theorem TableView_paint_cells :
  (∀ base rows cols headers data onselected onchanged,
     ∃ items hheader clicked changed,
       paintWidget (TableView base rows cols headers data onselected onchanged)
       = Ok (QTableWidget rows cols items hheader clicked changed)
       ∧ (∀ row col, 0 ≤ row < rows → 0 ≤ col < cols
            → items !! (row, col)
              = Some (cell_text data (Z.to_nat row) (Z.to_nat col)))
       ∧ (∀ row col, ¬ (0 ≤ row < rows ∧ 0 ≤ col < cols)
            → items !! (row, col) = None)
       ∧ (∀ i, 0 ≤ i < cols
            → hheader !! i = Some (header_text headers (Z.to_nat i))))
  ∧ (∀ data row col r v,
       data !! row = Some r → r !! col = Some v
       → cell_text data row col = py_str v)
  ∧ (∀ data row col,
       (length data ≤ row)%nat
       ∨ (∃ r, data !! row = Some r ∧ (length r ≤ col)%nat)
       → cell_text data row col = "")
  ∧ (∀ headers i s,
       headers !! i = Some (VStr s) → header_text headers i = s)
  ∧ (∀ headers i,
       (length headers ≤ i)%nat
       → header_text headers i = py_str (VInt (Z.of_nat i + 1)))
  ∧ (∀ key headers onSelected onChanged,
       ∃ items hheader clicked changed,
         paintWidget (TableView_init key 2 2 headers [[VStr "a"; VStr "b"]]
                        onSelected onChanged)
         = Ok (QTableWidget 2 2 items hheader clicked changed)
         ∧ items !! (0, 0) = Some "a" ∧ items !! (0, 1) = Some "b"
         ∧ items !! (1, 0) = Some "" ∧ items !! (1, 1) = Some "").
Proof.
  assert (∀ base rows cols headers data onselected onchanged,
     ∃ items hheader clicked changed,
       paintWidget (TableView base rows cols headers data onselected onchanged)
       = Ok (QTableWidget rows cols items hheader clicked changed)
       ∧ (∀ row col, 0 ≤ row < rows → 0 ≤ col < cols
            → items !! (row, col)
              = Some (cell_text data (Z.to_nat row) (Z.to_nat col)))
       ∧ (∀ row col, ¬ (0 ≤ row < rows ∧ 0 ≤ col < cols)
            → items !! (row, col) = None)
       ∧ (∀ i, 0 ≤ i < cols
            → hheader !! i = Some (header_text headers (Z.to_nat i))))
    as Hpaint.
  { intros. do 4 eexists. split; [apply TableView_paint|].
    split; [|split].
    - intros row col Hrow Hcol.
      rewrite (foldl_insert_rows_lookup
                 (λ row col, cell_text data (Z.to_nat row) (Z.to_nat col))).
      rewrite decide_True; [done|]. by rewrite !elem_of_range.
    - intros row col Hout.
      rewrite (foldl_insert_rows_lookup
                 (λ row col, cell_text data (Z.to_nat row) (Z.to_nat col))).
      rewrite decide_False; [done|]. by rewrite !elem_of_range.
    - intros i Hi.
      rewrite (foldl_insert_lookup (λ i, header_text headers (Z.to_nat i))).
      rewrite decide_True; [done|]. by rewrite elem_of_range. }
  split; [exact Hpaint|]. split; [|split; [|split; [|split]]].
  - intros data row col r v Hr Hv. unfold cell_text. by rewrite Hr, Hv.
  - intros data row col [Hrow|(r & Hr & Hcol)]; unfold cell_text.
    + by rewrite (lookup_ge_None_2 data).
    + by rewrite Hr, (lookup_ge_None_2 r).
  - intros headers i s Hh. unfold header_text. by rewrite Hh.
  - intros headers i Hi. unfold header_text.
    by rewrite (lookup_ge_None_2 headers).
  - intros key headers onSelected onChanged. unfold TableView_init.
    destruct (Hpaint (Widget_init key) 2 2 headers [[VStr "a"; VStr "b"]]
                onSelected onChanged)
      as (items & hheader & clicked & changed & Heq & Hcells & _).
    exists items, hheader, clicked, changed. split; [exact Heq|].
    rewrite !Hcells by lia. done.
Qed.

Lemma TableView_paint_cells_witness :
  [[VStr "a"; VStr "b"]] !! 0%nat = Some [VStr "a"; VStr "b"]
  ∧ [VStr "a"; VStr "b"] !! 1%nat = Some (VStr "b")
  ∧ cell_text [[VStr "a"; VStr "b"]] 0 1 = py_str (VStr "b").
Proof.
  split; [reflexivity|]. split; [reflexivity|].
  apply (proj1 (proj2 TableView_paint_cells)
           [[VStr "a"; VStr "b"]] 0%nat 1%nat [VStr "a"; VStr "b"] (VStr "b"));
    reflexivity.
Defined.

(** ** Requesting a repaint *)

Section Repaint.

Context (hash : string → Z) (repr : PyVal → string).

(** Before [build] the diagnostic is printed, and the call on the missing
    context then raises. *)
Lemma Widget_setState_unbuilt W w :
  context_of W = None
  → Widget_setState hash repr W w
    = ({| stdout := stdout w ++ ["attempted setState() on an unbuilt widget"];
          contexts := contexts w; apps := apps w; qt_events := qt_events w |},
       Raise (AttributeError "'NoneType' object has no attribute 'repaint'")).
Proof. intros Hctx. unfold Widget_setState. rewrite Hctx. reflexivity. Qed.

(** The repaint trigger of the context is the method [setState]. *)
Lemma call_method_setState c :
  call_method hash repr (Some c) "setState" = BuildContext_setState hash repr c.
Proof. reflexivity. Qed.

(** C1. After [W.build(context)], [W.setState()] calls the method [repaint]
    of the context, which class [BuildContext] does not have: it raises
    [AttributeError] and leaves the store as it was, so no application is
    asked to repaint. *)
Theorem Widget_setState_after_build context W w :
  Widget_setState hash repr (build hash repr context W) w
  = (w, Raise (AttributeError
                 "'BuildContext' object has no attribute 'repaint'")).
Proof.
  unfold Widget_setState. rewrite context_of_build. reflexivity.
Qed.

End Repaint.

(** ** Running the application *)

Section Run.

Context (hash : string → Z) (repr : PyVal → string).

Lemma keeps_running_bind {A B} self (m : Py A) (k : A → Py B) :
  keeps_running self m → (∀ a, keeps_running self (k a))
  → keeps_running self (m ≫= k).
Proof.
  intros Hm Hk w. unfold mbind, Py_bind.
  specialize (Hm w). destruct (m w) as [w' [a|e]]; simpl in *.
  - by rewrite Hk.
  - done.
Qed.

Lemma keeps_running_pure {A} self (r : result A) :
  keeps_running self (lift r).
Proof. by intros w. Qed.

Lemma keeps_running_mret {A} self (a : A) : keeps_running self (mret a).
Proof. by intros w. Qed.

Lemma keeps_running_qt self ev : keeps_running self (qt ev).
Proof. by intros w. Qed.

Lemma keeps_running_get_app self a : keeps_running self (get_app a).
Proof. intros w. unfold get_app. by destruct (apps w !! a). Qed.

Lemma keeps_running_call_builder self app :
  keeps_running self (call_builder app).
Proof. intros w. unfold call_builder. by destruct (_builder app). Qed.

Lemma keeps_running_update_app self f :
  (∀ app, _running (f app) = _running app)
  → keeps_running self (update_app self f).
Proof.
  intros Hf w. unfold update_app, get_app, put_app, running_flag, mbind, Py_bind.
  destruct (apps w !! self) as [app|] eqn:Happ; simpl; [|by rewrite Happ].
  rewrite lookup_insert_eq. simpl. by rewrite Hf.
Qed.

Ltac keeps_running :=
  cbv zeta;
  first [ by apply keeps_running_update_app
        | apply keeps_running_call_builder
        | apply keeps_running_qt
        | apply keeps_running_pure
        | apply keeps_running_mret
        | apply keeps_running_get_app
        | apply keeps_running_bind; [keeps_running | intros ?; keeps_running] ].

Lemma Application_run_keeps_running self :
  keeps_running self (Application_run hash repr self).
Proof.
  unfold Application_run.
  apply keeps_running_bind; [apply keeps_running_get_app|]. intros app.
  destruct (_running app); [apply keeps_running_mret|].
  keeps_running.
Qed.

(** C4. [run] never assigns [_running]: whatever the store, the attribute
    of the application has after [run] the value it had before.  An
    application made by [__init__] has [_running = False]; it still has
    after [run], and a second [run] goes through the whole start again
    (a second [QApplication], a second event loop) instead of returning at
    once. *)
Theorem Application_run_never_Running :
  (∀ self w,
     running_flag self (Application_run hash repr self w).1
     = running_flag self w)
  ∧ (let '(w1, app) :=
       Application_init None (Some example_builder) "declPyQt5 Application"
         None None empty_world in
     let '(w2, r2) := Application_run hash repr 0%nat w1 in
     let '(w3, r3) := Application_run hash repr 0%nat w2 in
     app = Ok 0%nat
     ∧ running_flag 0%nat w1 = Some false
     ∧ r2 = Ok () ∧ running_flag 0%nat w2 = Some false
     ∧ qt_events w2 = [QApplication_new; exec_]
     ∧ r3 = Ok () ∧ running_flag 0%nat w3 = Some false
     ∧ qt_events w3 = [QApplication_new; exec_; QApplication_new; exec_]).
Proof.
  split; [intros self w; apply Application_run_keeps_running|].
  vm_compute. repeat split.
Qed.

End Run.

(** ** The hash a build stores *)

Section Hash.

Context (hash : string → Z) (repr : PyVal → string).

Lemma is_Expanded_build context w :
  is_Expanded (build hash repr context w) = is_Expanded w.
Proof. rewrite build_unfold. by destruct w. Qed.

Lemma AxisAlignedBox_has_expanded_build context children :
  AxisAlignedBox_has_expanded (map (fmap (build hash repr context)) children)
  = AxisAlignedBox_has_expanded children.
Proof.
  apply eq_true_iff_eq. rewrite !AxisAlignedBox_has_expanded_spec.
  split.
  - intros (child & Hin & Hex).
    apply list_elem_of_fmap in Hin as ([x|] & Heq & Hx); [|done].
    injection Heq as ->. rewrite is_Expanded_build in Hex. eauto.
  - intros (child & Hin & Hex).
    exists (build hash repr context child). split.
    + apply list_elem_of_fmap. by exists (Some child).
    + by rewrite is_Expanded_build.
Qed.

Lemma omap_id_fmap (f : Widget → Widget) (children : list (option Widget)) :
  omap id (map (fmap f) children) = map f (omap id children).
Proof.
  induction children as [|[c|] cs IH]; simpl; [done| |done].
  f_equal. exact IH.
Qed.

(** A build overwrites what an earlier build stored: building again, with
    the same or another context, gives what a single build gives. *)
Lemma build_build c1 c2 w :
  build hash repr c2 (build hash repr c1 w) = build hash repr c2 w.
Proof.
  remember (height w) as n eqn:Hn.
  assert (height w ≤ n)%nat as Hle by lia. clear Hn.
  revert w Hle. induction n as [|n IH]; intros w Hle.
  { pose proof (height_pos w). lia. }
  assert (∀ key children vertical alignment,
    (∀ x, Some x ∈ children → (height x ≤ n)%nat)
    → build hash repr c2
        (AxisAlignedBox_init key
           (map (fmap (build hash repr c1)) children) vertical alignment)
      = build hash repr c2
          (AxisAlignedBox_init key children vertical alignment)) as Hbox.
  { intros key children vertical alignment Hch.
    rewrite !AxisAlignedBox_init_children.
    rewrite AxisAlignedBox_has_expanded_build, omap_id_fmap.
    rewrite !(build_unfold _ _ _ (AxisAlignedBox _ _ _)). cbn [build_step].
    assert (map (build hash repr c2)
              (spacers_before (AxisAlignedBox_has_expanded children) alignment
                 ++ map (build hash repr c1) (omap id children)
                 ++ spacers_after (AxisAlignedBox_has_expanded children)
                      alignment)
            = map (build hash repr c2)
                (spacers_before (AxisAlignedBox_has_expanded children) alignment
                   ++ omap id children
                   ++ spacers_after (AxisAlignedBox_has_expanded children)
                        alignment)) as ->; [|reflexivity].
    rewrite !map_app, map_map. do 2 f_equal.
    apply map_ext_in. intros x Hx. apply IH, Hch.
    apply list_elem_of_In, list_elem_of_omap in Hx as (o & Ho & Hid).
    simpl in Hid. by subst. }
  rewrite (build_unfold _ _ c1 w).
  destruct w as [| | |b c f|b cs v|b cs al ch|b cs al ch| |];
    cbn [build_step height] in *;
    rewrite (build_unfold _ _ c2); cbn [build_step];
    rewrite ?(build_unfold _ _ c2 (Text _ _)),
            ?(build_unfold _ _ c2 (LabelButton _ _ _ _)),
            ?(build_unfold _ _ c2 (TextField _ _ _ _ _)),
            ?(build_unfold _ _ c2 (Expanded _ _ _)),
            ?(build_unfold _ _ c2 (AxisAlignedBox _ _ _)),
            ?(build_unfold _ _ c2 (Column _ _ _ _)),
            ?(build_unfold _ _ c2 (Row _ _ _ _)),
            ?(build_unfold _ _ c2 (TableView _ _ _ _ _ _ _)),
            ?(build_unfold _ _ c2 (DropdownList _ _ _ _));
    cbn [build_step]; try reflexivity.
  - rewrite IH by lia. reflexivity.
  - assert (map (build hash repr c2) (map (build hash repr c1) cs)
            = map (build hash repr c2) cs) as ->; [|reflexivity].
    rewrite map_map. apply map_ext_in. intros x Hx. apply IH.
    apply list_elem_of_In, height_child in Hx. lia.
  - rewrite Hbox.
    + assert (map (fmap (build hash repr c2))
                (map (fmap (build hash repr c1)) cs)
              = map (fmap (build hash repr c2)) cs) as ->; [|reflexivity].
      rewrite map_map. apply map_ext_in. intros [x|] Hx; [|done]. simpl.
      f_equal. apply IH.
      apply list_elem_of_In, height_option_child in Hx. lia.
    + intros x Hx. apply height_option_child in Hx. lia.
  - rewrite Hbox.
    + assert (map (fmap (build hash repr c2))
                (map (fmap (build hash repr c1)) cs)
              = map (fmap (build hash repr c2)) cs) as ->; [|reflexivity].
      rewrite map_map. apply map_ext_in. intros [x|] Hx; [|done]. simpl.
      f_equal. apply IH.
      apply list_elem_of_In, height_option_child in Hx. lia.
    + intros x Hx. apply height_option_child in Hx. lia.
Qed.

(** C2. The hash [build] stores leaves declared fields out: two
    [TextField]s that differ only in [value], two [DropdownList]s that
    differ only in [index] and two [AxisAlignedBox]es that differ only in
    [vertical] get the same hash, whatever the function [hash] is. *)
Theorem build_hash_leaves_fields_out :
  (∀ context key placeholder value1 value2 hidden onChanged,
     hash_of (build hash repr context
                (TextField_init key placeholder value1 hidden onChanged))
     = hash_of (build hash repr context
                  (TextField_init key placeholder value2 hidden onChanged)))
  ∧ (∀ context key items index1 index2 onChanged,
       hash_of (build hash repr context
                  (DropdownList_init key items index1 onChanged))
       = hash_of (build hash repr context
                    (DropdownList_init key items index2 onChanged)))
  ∧ (∀ context key children alignment,
       hash_of (build hash repr context
                  (AxisAlignedBox_init key children true alignment))
       = hash_of (build hash repr context
                    (AxisAlignedBox_init key children false alignment)))
  ∧ hash_of (build hash repr 0%nat (TextField_init AnyKey "" "a" false None))
    = hash_of (build hash repr 0%nat (TextField_init AnyKey "" "b" false None)).
Proof.
  split; [|split; [|split]]; intros;
    rewrite ?AxisAlignedBox_init_children, !build_unfold; reflexivity.
Qed.

End Hash.

(** * Further properties *)

(** ** What a build leaves in the tree *)

Section BuildTree.

Context (hash : string → Z) (repr : PyVal → string).

Lemma elem_of_concat_map {A B} (f : A → list B) (l : list A) (x : B) :
  x ∈ concat (map f l) ↔ ∃ a, a ∈ l ∧ x ∈ f a.
Proof.
  rewrite list_elem_of_In, in_concat. split.
  - intros (ys & (a & <- & Ha)%in_map_iff & Hx).
    exists a. by rewrite !list_elem_of_In.
  - intros (a & Ha%list_elem_of_In & Hx%list_elem_of_In).
    exists (f a). rewrite in_map_iff. split; [by exists a|done].
Qed.

Lemma build_context_below context n w :
  (height w ≤ n)%nat
  → ∀ x, x ∈ descendants (build hash repr context w)
         → context_of x = Some context.
Proof.
  revert w. induction n as [|n IH]; intros w Hle x Hx.
  { pose proof (height_pos w). lia. }
  rewrite build_unfold in Hx.
  destruct w as [| | |b c f|b cs v|b cs al ch|b cs al ch| |];
    cbn [build_step descendants height] in *;
    apply elem_of_cons in Hx as [->|Hx]; try reflexivity;
    try (by apply elem_of_nil in Hx).
  - apply (IH c); [lia|done].
  - apply elem_of_concat_map in Hx as (y & Hy & Hx).
    apply list_elem_of_fmap in Hy as (y0 & -> & Hy0).
    apply (IH y0); [|done]. apply height_child in Hy0. lia.
  - apply elem_of_app in Hx as [Hx|Hx].
    + apply elem_of_concat_map in Hx as (y & Hy & Hx).
      apply list_elem_of_fmap in Hy as ([y0|] & -> & Hy0);
        [|by apply elem_of_nil in Hx].
      apply (IH y0); [|done]. apply height_option_child in Hy0. lia.
    + apply (IH (AxisAlignedBox_init AnyKey cs true al)); [|done].
      pose proof (height_AxisAlignedBox_init AnyKey cs true al). lia.
  - apply elem_of_app in Hx as [Hx|Hx].
    + apply elem_of_concat_map in Hx as (y & Hy & Hx).
      apply list_elem_of_fmap in Hy as ([y0|] & -> & Hy0);
        [|by apply elem_of_nil in Hx].
      apply (IH y0); [|done]. apply height_option_child in Hy0. lia.
    + apply (IH (AxisAlignedBox_init AnyKey cs false al)); [|done].
      pose proof (height_AxisAlignedBox_init AnyKey cs false al). lia.
Qed.

(** X1. [build] hands its context down the whole tree: after
    [w.build(context)] the widget, every widget below it, the box a
    [Column] or [Row] has made and the spacers of a box all hold
    [context]. *)
Theorem build_context_everywhere context w x :
  x ∈ descendants (build hash repr context w) → context_of x = Some context.
Proof. apply (build_context_below context (height w)). lia. Qed.

End BuildTree.

Lemma build_context_everywhere_witness :
  context_of
    (Text {| _key := AnyKey; _context := Some 7%nat;
             _hash := example_hash "Text(text=hi)" |} "hi")
  = Some 7%nat.
Proof.
  apply (build_context_everywhere example_hash example_repr 7%nat
           (example_builder 7%nat)).
  vm_compute. right. left.
Defined.

(** ** What the hash does not see *)

Section HashBlind.

Context (hash : string → Z) (repr : PyVal → string).

(** X2. A build overwrites what earlier builds left in the tree: building
    a built tree again, with the same or with another context, gives the
    tree a single build gives, and so the same hash. *)
Theorem build_again c1 c2 w :
  build hash repr c2 (build hash repr c1 w) = build hash repr c2 w
  ∧ hash_of (build hash repr c1 (build hash repr c1 w))
    = hash_of (build hash repr c1 w).
Proof. split; [apply build_build|]. by rewrite build_build. Qed.

Lemma is_Expanded_map_keys f w : is_Expanded (map_keys f w) = is_Expanded w.
Proof. by destruct w. Qed.

Lemma AxisAlignedBox_has_expanded_fmap (g : Widget → Widget) children :
  (∀ x, is_Expanded (g x) = is_Expanded x)
  → AxisAlignedBox_has_expanded (map (fmap g) children)
    = AxisAlignedBox_has_expanded children.
Proof.
  intros Hg. apply eq_true_iff_eq. rewrite !AxisAlignedBox_has_expanded_spec.
  split.
  - intros (child & Hin & Hex).
    apply list_elem_of_fmap in Hin as ([x|] & Heq & Hx); [|done].
    injection Heq as ->. rewrite Hg in Hex. eauto.
  - intros (child & Hin & Hex). exists (g child). split.
    + apply list_elem_of_fmap. by exists (Some child).
    + by rewrite Hg.
Qed.

Lemma hash_of_build_AxisAlignedBox context base children vertical :
  hash_of (build hash repr context (AxisAlignedBox base children vertical))
  = hash ("AxisAlignedBox(children=["
            +:+ join "," (map (λ child,
                                 pretty (hash_of (build hash repr context child)))
                              children)
            +:+ "])").
Proof. rewrite build_unfold. cbn. by rewrite map_map. Qed.

Lemma hash_of_build_map_keys c1 c2 f n w :
  (height w ≤ n)%nat
  → hash_of (build hash repr c1 (map_keys f w))
    = hash_of (build hash repr c2 w).
Proof.
  revert w. induction n as [|n IH]; intros w Hle.
  { pose proof (height_pos w). lia. }
  assert (∀ key children vertical alignment,
    (∀ x, Some x ∈ children → (height x ≤ n)%nat)
    → hash_of (build hash repr c1
                 (AxisAlignedBox_init key (map (fmap (map_keys f)) children)
                    vertical alignment))
      = hash_of (build hash repr c2
                   (AxisAlignedBox_init key children vertical alignment)))
    as Hbox.
  { intros key children vertical alignment Hch.
    rewrite !AxisAlignedBox_init_children.
    rewrite AxisAlignedBox_has_expanded_fmap by apply is_Expanded_map_keys.
    rewrite omap_id_fmap, !hash_of_build_AxisAlignedBox.
    do 3 f_equal. rewrite !map_app, map_map. f_equal.
    apply (f_equal2 (@app string)); [|apply (f_equal2 (@app string))].
    - destruct (AxisAlignedBox_has_expanded children), alignment; reflexivity.
    - apply map_ext_in. intros x Hx. f_equal. apply IH, Hch.
      apply list_elem_of_In, list_elem_of_omap in Hx as (o & Ho & Hid).
      simpl in Hid. by subst.
    - destruct (AxisAlignedBox_has_expanded children), alignment; reflexivity. }
  destruct w as [| | |b c g|b cs v|b cs al ch|b cs al ch| |];
    cbn [map_keys height] in *.
  - by rewrite !build_unfold.
  - by rewrite !build_unfold.
  - by rewrite !build_unfold.
  - rewrite (build_unfold _ _ c1), (build_unfold _ _ c2). cbn.
    rewrite (IH c) by lia. reflexivity.
  - rewrite !hash_of_build_AxisAlignedBox. do 4 f_equal.
    rewrite map_map. apply map_ext_in. intros x Hx. f_equal. apply IH.
    apply list_elem_of_In, height_child in Hx. lia.
  - rewrite !build_Column. cbn. rewrite Hbox; [reflexivity|].
    intros x Hx. apply height_option_child in Hx. lia.
  - rewrite !build_Row. cbn. rewrite Hbox; [reflexivity|].
    intros x Hx. apply height_option_child in Hx. lia.
  - by rewrite !build_unfold.
  - by rewrite !build_unfold.
Qed.

(** X3. The hash a build stores sees neither the context nor any key: a
    tree built with one context and the same tree with all its keys
    replaced, built with another context, get the same hash.  In
    particular two widgets that differ only in their key get the same
    hash. *)
Theorem hash_blind_to_context_and_keys :
  (∀ c1 c2 f w,
     hash_of (build hash repr c1 (map_keys f w))
     = hash_of (build hash repr c2 w))
  ∧ (∀ c key1 key2 text,
       hash_of (build hash repr c (Text_init text key1))
       = hash_of (build hash repr c (Text_init text key2))).
Proof.
  split.
  - intros. by apply (hash_of_build_map_keys c1 c2 f (height w)).
  - intros. by rewrite !build_unfold.
Qed.

End HashBlind.

(** ** When a built tree paints *)

Section PaintTree.

Context (hash : string → Z) (repr : PyVal → string).

Lemma forallb_false {A} (f : A → bool) (l : list A) :
  forallb f l = false → ∃ x, x ∈ l ∧ f x = false.
Proof.
  induction l as [|x l IH]; simpl; [done|].
  destruct (f x) eqn:Hx; simpl.
  - intros (y & Hy & Hfy)%IH. exists y. split; [by right|done].
  - intros _. exists x. split; [left|done].
Qed.

Lemma textfields_wired_init key children vertical alignment :
  textfields_wired (AxisAlignedBox_init key children vertical alignment)
  = forallb (λ c, from_option textfields_wired true c) children.
Proof.
  rewrite AxisAlignedBox_init_children. cbn [textfields_wired].
  rewrite !forallb_app.
  assert (∀ he, forallb textfields_wired (spacers_before he alignment) = true)
    as -> by (by intros [] ; destruct alignment).
  assert (∀ he, forallb textfields_wired (spacers_after he alignment) = true)
    as -> by (by intros [] ; destruct alignment).
  rewrite andb_true_r. simpl.
  induction children as [|[c|] cs IH]; simpl; [done| |exact IH].
  f_equal. exact IH.
Qed.

(** The first loop of a box stops at the first child that does not paint. *)
Lemma AxisAlignedBox_paint_children_raises paint children st e :
  (∀ child, child ∈ children → is_Ok (paint child) ∨ paint child = Raise e)
  → (∃ child, child ∈ children ∧ paint child = Raise e)
  → AxisAlignedBox_paint_children paint children st = Raise e.
Proof.
  revert st. induction children as [|c cs IH]; intros st Hall Hex.
  { destruct Hex as (x & Hx & _). by apply elem_of_nil in Hx. }
  simpl. destruct (Hall c) as [[w Hw]|Hr]; [left| |by rewrite Hr].
  rewrite Hw. simpl. apply IH.
  - intros. apply Hall. by right.
  - destruct Hex as (x & [->|Hx]%elem_of_cons & Hr); [congruence|eauto].
Qed.

Lemma paint_all_Ok (paint : Widget → result QWidget) children :
  (∀ child, child ∈ children → is_Ok (paint child))
  → ∃ widgets,
      Forall2 (λ child widget, paint child = Ok widget) children widgets.
Proof.
  induction children as [|c cs IH]; intros Hall.
  - exists []. constructor.
  - destruct (Hall c) as [w Hw]; [left|].
    destruct IH as [ws Hws]; [intros; apply Hall; by right|].
    exists (w :: ws). by constructor.
Qed.

Lemma paint_built_cases context n w :
  (height w ≤ n)%nat
  → (textfields_wired w = true
     → is_Ok (paintWidget (build hash repr context w)))
    ∧ (textfields_wired w = false
       → paintWidget (build hash repr context w)
         = Raise (TypeError "argument 1 has unexpected type 'NoneType'")).
Proof.
  revert w. induction n as [|n IH]; intros w Hle.
  { pose proof (height_pos w). lia. }
  assert (∀ base children vertical,
    (∀ x, x ∈ children → (height x ≤ n)%nat)
    → (forallb textfields_wired children = true
       → is_Ok (paintWidget
                  (build hash repr context
                     (AxisAlignedBox base children vertical))))
      ∧ (forallb textfields_wired children = false
         → paintWidget
             (build hash repr context (AxisAlignedBox base children vertical))
           = Raise (TypeError "argument 1 has unexpected type 'NoneType'")))
    as Hbox.
  { intros base children vertical Hch.
    rewrite build_unfold. cbn [build_step]. split.
    - intros Hall. rewrite forallb_forall in Hall.
      destruct (paint_all_Ok paintWidget (map (build hash repr context) children))
        as [ws Hws].
      { intros x (y & -> & Hy)%list_elem_of_fmap.
        apply (IH y); [by apply Hch|]. by apply Hall, list_elem_of_In. }
      rewrite (AxisAlignedBox_paint _ _ _ _ Hws). by eexists.
    - intros (x & Hx & Hfx)%forallb_false. cbn [paintWidget].
      rewrite (AxisAlignedBox_paint_children_raises _ _ _
                 (TypeError "argument 1 has unexpected type 'NoneType'"));
        [done| |].
      + intros y (y0 & -> & Hy0)%list_elem_of_fmap.
        destruct (IH y0 (Hch y0 Hy0)) as [Hok Hraise].
        destruct (textfields_wired y0); [left|right]; auto.
      + exists (build hash repr context x). split.
        * apply list_elem_of_fmap. by exists x.
        * by apply (IH x); [apply Hch|]. }
  destruct w as [| |b p v oc h|b c f|b cs v|b cs al ch|b cs al ch| |];
    cbn [textfields_wired height] in *.
  - rewrite build_unfold. split; [by eexists|done].
  - rewrite build_unfold. split; [|done]. intros _.
    destruct _ontap; by eexists.
  - rewrite build_unfold. destruct oc; split; try done. by eexists.
  - rewrite build_unfold. cbn [build_step paintWidget]. apply IH. lia.
  - apply Hbox. intros x Hx%height_child. lia.
  - rewrite build_Column. cbv zeta. cbn [paintWidget].
    rewrite <- (textfields_wired_init AnyKey cs true al).
    apply IH. pose proof (height_AxisAlignedBox_init AnyKey cs true al). lia.
  - rewrite build_Row. cbv zeta. cbn [paintWidget].
    rewrite <- (textfields_wired_init AnyKey cs false al).
    apply IH. pose proof (height_AxisAlignedBox_init AnyKey cs false al). lia.
  - rewrite build_unfold. cbn [build_step]. split; [|done]. intros _.
    rewrite TableView_paint. by eexists.
  - rewrite build_unfold. split; [by eexists|done].
Qed.

(** X4. A built tree paints exactly when every [TextField] declared in it
    has an [onChanged] callback: then [paintWidget] returns an element, and
    otherwise it raises the [TypeError] of the refused connection.  No
    other widget class, no [None] child and no spacer makes the paint of a
    built tree fail. *)
Theorem paint_built_iff_textfields_wired context w :
  (is_Ok (paintWidget (build hash repr context w))
   ↔ textfields_wired w = true)
  ∧ (paintWidget (build hash repr context w)
     = Raise (TypeError "argument 1 has unexpected type 'NoneType'")
     ↔ textfields_wired w = false).
Proof.
  destruct (paint_built_cases context (height w) w) as [Hok Hraise]; [lia|].
  destruct (textfields_wired w) eqn:Hw.
  - specialize (Hok eq_refl). split; split; try done.
    intros Hr. destruct Hok as [q Hq]. congruence.
  - specialize (Hraise eq_refl). split; split; try done.
    intros [q Hq]. congruence.
Qed.

End PaintTree.

Lemma paint_built_iff_textfields_wired_witness :
  is_Ok (paintWidget (build example_hash example_repr 0%nat
                        (example_builder 0%nat)))
  ↔ textfields_wired (example_builder 0%nat) = true.
Proof.
  apply (paint_built_iff_textfields_wired example_hash example_repr).
Defined.

(** ** Configurations the hash cannot tell apart *)

Lemma append_assoc (s1 s2 s3 : string) :
  (s1 +:+ s2) +:+ s3 = s1 +:+ s2 +:+ s3.
Proof.
  induction s1 as [|a s1 IH]; [done|].
  change (String a ((s1 +:+ s2) +:+ s3) = String a (s1 +:+ s2 +:+ s3)).
  by rewrite IH.
Qed.

Lemma hash_of_build_LabelButton hash repr context key label tooltip onTap :
  hash_of (build hash repr context (LabelButton_init key label tooltip onTap))
  = hash ("LabelButton(label=" +:+ label +:+ ",tooltip=" +:+ tooltip
            +:+ ",onTap=" +:+ py_type_str onTap +:+ ")").
Proof. rewrite build_unfold. reflexivity. Qed.

(** X5. The string a [LabelButton] hashes runs its fields together and
    names only the type of the callback.  So a button whose label ends in
    [",tooltip=" + b] and a button whose tooltip starts with
    [b + ",tooltip="] get the same hash, and so do two buttons that differ
    only in which callback of one type they carry. *)
Theorem LabelButton_hash_runs_fields_together hash repr :
  (∀ context key a b d onTap,
     hash_of (build hash repr context
                (LabelButton_init key (a +:+ ",tooltip=" +:+ b) d onTap))
     = hash_of (build hash repr context
                  (LabelButton_init key a (b +:+ ",tooltip=" +:+ d) onTap)))
  ∧ (∀ context key label tooltip f g,
       callable_type f = callable_type g
       → hash_of (build hash repr context
                    (LabelButton_init key label tooltip (Some f)))
         = hash_of (build hash repr context
                      (LabelButton_init key label tooltip (Some g)))).
Proof.
  split.
  - intros. rewrite !hash_of_build_LabelButton. by rewrite !append_assoc.
  - intros context key label tooltip f g Hfg.
    rewrite !hash_of_build_LabelButton. unfold py_type_str. by rewrite Hfg.
Qed.

Lemma LabelButton_hash_runs_fields_together_witness :
  callable_type {| callable_type := "function"; callable_id := 1 |}
  = callable_type {| callable_type := "function"; callable_id := 2 |}
  ∧ hash_of (build example_hash example_repr 0%nat
               (LabelButton_init AnyKey "go" ""
                  (Some {| callable_type := "function"; callable_id := 1 |})))
    = hash_of (build example_hash example_repr 0%nat
                 (LabelButton_init AnyKey "go" ""
                    (Some {| callable_type := "function"; callable_id := 2 |}))).
Proof.
  split; [reflexivity|].
  apply (LabelButton_hash_runs_fields_together example_hash example_repr).
  reflexivity.
Defined.

(** ** Table and list lookups behind the callbacks *)

Lemma py_index_negative {A} (xs : list A) (i : Z) :
  - Z.of_nat (length xs) ≤ i < 0
  → py_index xs i = xs !! Z.to_nat (i + Z.of_nat (length xs)).
Proof.
  intros Hi. unfold py_index.
  rewrite bool_decide_eq_false_2 by lia.
  by rewrite bool_decide_eq_true_2 by lia.
Qed.

Lemma py_index_below {A} (xs : list A) (i : Z) :
  i < - Z.of_nat (length xs) → py_index xs i = None.
Proof.
  intros Hi. unfold py_index.
  by rewrite !bool_decide_eq_false_2 by lia.
Qed.

Lemma py_index_above {A} (xs : list A) (i : Z) :
  Z.of_nat (length xs) ≤ i → py_index xs i = None.
Proof.
  intros Hi. unfold py_index.
  by rewrite !bool_decide_eq_false_2 by lia.
Qed.

(** X6. [_getdataitem] guards the upper bound of its indices only.  A
    negative row from [-len(data)] on counts from the end of the data (and
    likewise a negative column within the row), and a row below
    [-len(data)], or a column below minus the length of its row, raises
    [IndexError]; with no data every negative row raises. *)
Theorem TableView__getdataitem_negative :
  (∀ data row col r,
     - Z.of_nat (length data) ≤ row < 0
     → data !! Z.to_nat (row + Z.of_nat (length data)) = Some r
     → 0 ≤ col
     → TableView__getdataitem data row col
       = Ok (cell_text data (Z.to_nat (row + Z.of_nat (length data)))
               (Z.to_nat col)))
  ∧ (∀ data row col r v,
       0 ≤ row → data !! Z.to_nat row = Some r
       → - Z.of_nat (length r) ≤ col < 0
       → r !! Z.to_nat (col + Z.of_nat (length r)) = Some v
       → TableView__getdataitem data row col = Ok (py_str v))
  ∧ (∀ data row col,
       row < - Z.of_nat (length data)
       → TableView__getdataitem data row col
         = Raise (IndexError "list index out of range"))
  ∧ (∀ data row col r,
       0 ≤ row → data !! Z.to_nat row = Some r
       → col < - Z.of_nat (length r)
       → TableView__getdataitem data row col
         = Raise (IndexError "list index out of range"))
  ∧ (∀ row col,
       row < 0
       → TableView__getdataitem [] row col
         = Raise (IndexError "list index out of range")).
Proof.
  split; [|split; [|split; [|split]]].
  - intros data row col r Hrow Hr Hcol. unfold TableView__getdataitem, cell_text.
    rewrite bool_decide_eq_true_2 by lia.
    rewrite py_index_negative, Hr by lia.
    case_bool_decide as Hc.
    + rewrite py_index_nonneg by lia.
      destruct (r !! Z.to_nat col) as [v|] eqn:Hv; [done|].
      apply lookup_ge_None in Hv. lia.
    + by rewrite (lookup_ge_None_2 r) by lia.
  - intros data row col r v Hrow Hr Hcol Hv. unfold TableView__getdataitem.
    pose proof (lookup_lt_Some _ _ _ Hr).
    rewrite bool_decide_eq_true_2 by lia.
    rewrite py_index_nonneg, Hr by lia.
    rewrite bool_decide_eq_true_2 by lia.
    by rewrite py_index_negative, Hv by lia.
  - intros data row col Hrow. unfold TableView__getdataitem.
    rewrite bool_decide_eq_true_2 by lia.
    by rewrite py_index_below.
  - intros data row col r Hrow Hr Hcol. unfold TableView__getdataitem.
    pose proof (lookup_lt_Some _ _ _ Hr).
    rewrite bool_decide_eq_true_2 by lia.
    rewrite py_index_nonneg, Hr by lia.
    rewrite bool_decide_eq_true_2 by lia.
    by rewrite py_index_below.
  - intros row col Hrow. unfold TableView__getdataitem. simpl length.
    rewrite bool_decide_eq_true_2 by lia.
    by rewrite py_index_below by (simpl; lia).
Qed.

Lemma TableView__getdataitem_negative_witness :
  - Z.of_nat (length [[VStr "a"]; [VStr "b"; VStr "c"]]) ≤ -1 < 0
  ∧ TableView__getdataitem [[VStr "a"]; [VStr "b"; VStr "c"]] (-1) 1 = Ok "c"
  ∧ TableView__getdataitem [[VStr "a"]; [VStr "b"; VStr "c"]] (-3) 0
    = Raise (IndexError "list index out of range").
Proof.
  split; [simpl; lia|]. split.
  - apply (proj1 TableView__getdataitem_negative
             [[VStr "a"]; [VStr "b"; VStr "c"]] (-1) 1 [VStr "b"; VStr "c"]);
      [simpl; lia|reflexivity|lia].
  - apply (proj1 (proj2 (proj2 TableView__getdataitem_negative))).
    simpl; lia.
Defined.

(** X7. A click on a cell reports the data as it is when the click
    happens.  With a callback [f], [onSelect(row, col)] calls
    [f(row, col, text)] where [text] is [str(data[row][col])] (or the empty
    string out of range) for the content [data] of the list at that time.
    For a painted table this is the text the paint put into the cell
    whenever the list holds at that cell what it held when the table was
    painted; when the cell of the list has been changed since, the click
    reports the new text and not the one shown.  Without a callback the
    click calls nothing and raises nothing, whatever the indices. *)
Theorem TableView_onSelect_reports_current_data :
  (∀ f data row col,
     0 ≤ row → 0 ≤ col
     → TableView_onSelect (Some f) data row col
       = Ok (Some (call f [VInt row; VInt col;
                           VStr (cell_text data (Z.to_nat row)
                                   (Z.to_nat col))])))
  ∧ (∀ base rows cols headers painted f onchanged,
       ∃ items hheader clicked changed,
         paintWidget (TableView base rows cols headers painted (Some f)
                        onchanged)
         = Ok (QTableWidget rows cols items hheader clicked changed)
         ∧ ∀ data row col text,
             items !! (row, col) = Some text
             → (cell_text data (Z.to_nat row) (Z.to_nat col)
                = cell_text painted (Z.to_nat row) (Z.to_nat col)
                → TableView_onSelect (Some f) data row col
                  = Ok (Some (call f [VInt row; VInt col; VStr text])))
               ∧ (cell_text data (Z.to_nat row) (Z.to_nat col)
                  ≠ cell_text painted (Z.to_nat row) (Z.to_nat col)
                  → ∃ text',
                      text' ≠ text
                      ∧ TableView_onSelect (Some f) data row col
                        = Ok (Some (call f [VInt row; VInt col; VStr text']))))
  ∧ (∀ data row col, TableView_onSelect None data row col = Ok None).
Proof.
  assert (∀ f data row col,
     0 ≤ row → 0 ≤ col
     → TableView_onSelect (Some f) data row col
       = Ok (Some (call f [VInt row; VInt col;
                           VStr (cell_text data (Z.to_nat row)
                                   (Z.to_nat col))]))) as Hclick.
  { intros f data row col Hrow Hcol. unfold TableView_onSelect.
    by rewrite TableView__getdataitem_nonneg by lia. }
  split; [exact Hclick|]. split; [|done].
  intros. do 4 eexists. split; [apply TableView_paint|].
  intros data row col text.
  rewrite (foldl_insert_rows_lookup
             (λ row col, cell_text painted (Z.to_nat row) (Z.to_nat col))).
  case_decide as Hin; [|by rewrite lookup_empty].
  rewrite !elem_of_range in Hin. intros [= <-]. split.
  - intros <-. apply Hclick; lia.
  - intros Hne. eexists. split; [exact Hne|]. apply Hclick; lia.
Qed.

Lemma TableView_onSelect_reports_current_data_witness :
  (0 ≤ 0 ∧ 0 ≤ 0)
  ∧ TableView_onSelect (Some example_onTap) [[VStr "z"; VStr "b"]] 0 0
    = Ok (Some (call example_onTap [VInt 0; VInt 0; VStr "z"]))
  ∧ ∃ items hheader clicked changed,
      paintWidget (TableView (Widget_init AnyKey) 2 2 []
                     [[VStr "a"; VStr "b"]] (Some example_onTap) None)
      = Ok (QTableWidget 2 2 items hheader clicked changed)
      ∧ items !! (0, 0) = Some "a"
      ∧ ∃ text',
          text' ≠ "a"
          ∧ TableView_onSelect (Some example_onTap) [[VStr "z"; VStr "b"]] 0 0
            = Ok (Some (call example_onTap [VInt 0; VInt 0; VStr text'])).
Proof.
  split; [lia|]. split.
  - apply (proj1 TableView_onSelect_reports_current_data example_onTap
             [[VStr "z"; VStr "b"]] 0 0); lia.
  - destruct (proj1 (proj2 TableView_onSelect_reports_current_data)
                (Widget_init AnyKey) 2 2 [] [[VStr "a"; VStr "b"]]
                example_onTap None)
      as (items & hheader & clicked & changed & Hpaint & Hcall).
    exists items, hheader, clicked, changed. split; [exact Hpaint|].
    assert (items !! (0, 0) = Some "a") as Hcell.
    { rewrite TableView_paint in Hpaint. injection Hpaint as <- _ _ _.
      vm_compute. reflexivity. }
    split; [exact Hcell|].
    apply (proj2 (Hcall [[VStr "z"; VStr "b"]] 0 0 "a" Hcell)).
    vm_compute. discriminate.
Defined.

Lemma DropdownList_init_items key items index onChanged :
  DropdownList_init key items index onChanged
  = DropdownList (Widget_init key) (py_str <$> items) index onChanged.
Proof.
  unfold DropdownList_init. f_equal.
  assert (∀ acc : list string,
            foldl (λ acc item, acc ++ [py_str item]) acc items
            = acc ++ (py_str <$> items)) as Hloop.
  { induction items as [|x xs IH]; intros acc; simpl.
    - by rewrite app_nil_r.
    - rewrite IH. by rewrite <- app_assoc. }
  apply (Hloop []).
Qed.

(** X8. A [DropdownList] keeps the [str] of each item, shows them in
    order, and its [onSelected(i)] calls the callback with [i] and the
    string of item [i] for an index in range.  The index is not checked:
    [-1] reports the last item, and an index outside [-len, len) raises
    [IndexError].  Without a callback nothing is looked up, so nothing is
    raised. *)
Theorem DropdownList_onSelected_behaviour :
  (∀ key items index onChanged,
     paintWidget (DropdownList_init key items index onChanged)
     = Ok (QComboBox (py_str <$> items) index
             [SlotDropdownOnSelected onChanged (py_str <$> items)]))
  ∧ (∀ f (items : list PyVal) i item,
       0 ≤ i → items !! Z.to_nat i = Some item
       → DropdownList_onSelected (Some f) (py_str <$> items) i
         = Ok (Some (call f [VInt i; VStr (py_str item)])))
  ∧ (∀ f (items : list string) item,
       last items = Some item
       → DropdownList_onSelected (Some f) items (-1)
         = Ok (Some (call f [VInt (-1); VStr item])))
  ∧ (∀ f (items : list string) i,
       Z.of_nat (length items) ≤ i ∨ i < - Z.of_nat (length items)
       → DropdownList_onSelected (Some f) items i
         = Raise (IndexError "list index out of range"))
  ∧ (∀ items i, DropdownList_onSelected None items i = Ok None).
Proof.
  split; [|split; [|split; [|split]]].
  - intros. by rewrite DropdownList_init_items.
  - intros f items i item Hi Hitem. unfold DropdownList_onSelected.
    pose proof (lookup_lt_Some _ _ _ Hitem).
    rewrite py_index_nonneg by (rewrite ?length_fmap; lia).
    by rewrite list_lookup_fmap, Hitem.
  - intros f items item Hlast. unfold DropdownList_onSelected.
    destruct items as [|x xs]; [done|].
    rewrite py_index_negative by (simpl; lia).
    rewrite last_lookup in Hlast.
    replace (Z.to_nat (-1 + Z.of_nat (length (x :: xs))))
      with (pred (length (x :: xs))) by (simpl; lia).
    by rewrite Hlast.
  - intros f items i [Hi|Hi]; unfold DropdownList_onSelected.
    + by rewrite py_index_above.
    + by rewrite py_index_below.
  - done.
Qed.

Lemma DropdownList_onSelected_behaviour_witness :
  last ["x"; "y"] = Some "y"
  ∧ DropdownList_onSelected (Some example_onTap) ["x"; "y"] (-1)
    = Ok (Some (call example_onTap [VInt (-1); VStr "y"]))
  ∧ DropdownList_onSelected (Some example_onTap) ["x"; "y"] 2
    = Raise (IndexError "list index out of range").
Proof.
  split; [reflexivity|]. split.
  - apply DropdownList_onSelected_behaviour. reflexivity.
  - apply DropdownList_onSelected_behaviour. left. simpl. lia.
Defined.

(** ** The message box *)

(** X9. A click in a message box.  When the box holds as many distinct
    buttons as its kind declares, a click on any of them reports a name
    that belongs to the kind: the first button reports "ok", "ok", "yes" or
    "close", the second "cancel" or "no"; the callback, if there is one,
    is called with that name.  A click on a button other than the first in
    a box with a single name raises [KeyError], also when there is no
    callback; with no button at all a click raises [IndexError]. *)
Theorem showMessageBox_click :
  (∀ title text icon buttons onTap _buttons button,
     length _buttons
     = length (msg_standardButtons (showMessageBox title text icon buttons))
     → NoDup _buttons
     → ∀ i, _buttons !! i = Some button
     → ∃ bid,
         button_names buttons !! i = Some bid
         ∧ showMessageBox_foo buttons onTap _buttons button
           = Reported bid (if onTap is Some f then Some (call f [VStr bid])
                           else None))
  ∧ (∀ buttons onTap first rest button,
       length (button_names buttons) = 1%nat
       → button ≠ first
       → showMessageBox_foo buttons onTap (first :: rest) button
         = RaisedKeyError)
  ∧ (∀ buttons onTap button,
       showMessageBox_foo buttons onTap [] button = RaisedIndexError).
Proof.
  split; [|split].
  - intros title text icon buttons onTap bs button Hlen Hnd i Hi.
    destruct bs as [|b0 bs]; [done|]. unfold showMessageBox_foo.
    destruct i as [|i].
    + injection Hi as ->. rewrite bool_decide_eq_true_2 by done.
      destruct buttons; by eexists.
    + assert (button ≠ b0) as Hne.
      { intros ->. apply NoDup_cons in Hnd as [Hnin _]. apply Hnin.
        by eapply list_elem_of_lookup_2. }
      rewrite bool_decide_eq_false_2 by done.
      destruct buttons; simpl in Hlen;
        destruct bs as [|b1 [|b2 bs]]; try done;
        destruct i; try done; by eexists.
  - intros buttons onTap first rest button Hone Hne.
    unfold showMessageBox_foo. rewrite bool_decide_eq_false_2 by done.
    by destruct buttons.
  - done.
Qed.

Lemma showMessageBox_click_witness :
  length [10%nat; 11%nat]
  = length (msg_standardButtons
              (showMessageBox "t" "q" MessageBoxIcon_question
                 MessageBoxButtons_yesNo))
  ∧ NoDup [10%nat; 11%nat]
  ∧ ∃ bid,
      button_names MessageBoxButtons_yesNo !! 1%nat = Some bid
      ∧ showMessageBox_foo MessageBoxButtons_yesNo (Some example_onTap)
          [10%nat; 11%nat] 11%nat
        = Reported bid (Some (call example_onTap [VStr bid])).
Proof.
  split; [reflexivity|].
  assert (NoDup [10%nat; 11%nat]) as Hnd.
  { apply NoDup_cons. split; [|apply NoDup_cons; split; [|apply NoDup_nil_2]].
    - intros [Heq|Hin]%elem_of_cons; [lia|by apply elem_of_nil in Hin].
    - intros Hin. by apply elem_of_nil in Hin. }
  split; [exact Hnd|].
  apply (proj1 showMessageBox_click "t" "q" MessageBoxIcon_question
           MessageBoxButtons_yesNo (Some example_onTap) [10%nat; 11%nat]
           11%nat); [reflexivity|exact Hnd|reflexivity].
Defined.

(** ** The application: start and repaint *)

Section ApplicationRun.

Context (hash : string → Z) (repr : PyVal → string).

Lemma Py_bind_Ok {A B} (m : Py A) (k : A → Py B) w w' a :
  m w = (w', Ok a) → (m ≫= k) w = k a w'.
Proof. intros Hm. unfold mbind, Py_bind. by rewrite Hm. Qed.

Lemma Py_bind_Raise {A B} (m : Py A) (k : A → Py B) w w' e :
  m w = (w', Raise e) → (m ≫= k) w = (w', Raise e).
Proof. intros Hm. unfold mbind, Py_bind. by rewrite Hm. Qed.

Lemma get_app_at self w app :
  apps w !! self = Some app → get_app self w = (w, Ok app).
Proof. intros Happ. unfold get_app. by rewrite Happ. Qed.

Lemma update_app_at self f w app :
  apps w !! self = Some app
  → update_app self f w
    = ({| stdout := stdout w; contexts := contexts w;
          apps := <[self := f app]> (apps w); qt_events := qt_events w |},
       Ok ()).
Proof.
  intros Happ. unfold update_app.
  by rewrite (Py_bind_Ok _ _ _ _ _ (get_app_at _ _ _ Happ)).
Qed.

Lemma Application_run_Ok self w app builder q :
  apps w !! self = Some app → _running app = false
  → _builder app = Some builder
  → paintWidget (build hash repr (app_context app) (builder (app_context app)))
    = Ok q
  → Application_run hash repr self w
    = ({| stdout := stdout w; contexts := contexts w;
          apps :=
            <[self :=
                {| app_context := app_context app; _builder := _builder app;
                   _title := _title app;
                   _state := Some (build hash repr (app_context app)
                                     (builder (app_context app)));
                   _running := false;
                   _widget :=
                     Some {| window_has_layout := true;
                             windowTitle := _title app;
                             window_size :=
                               match _windowsize app with
                               | (Some width, Some height) =>
                                   Some (width, height)
                               | _ => None
                               end;
                             window_visible := true |};
                   app_application := true;
                   _layout := Some [q];
                   _windowsize := _windowsize app |}]> (apps w);
          qt_events := qt_events w ++ [QApplication_new; exec_] |}, Ok ()).
Proof.
  intros Happ Hrun Hb Hq. unfold Application_run.
  rewrite (Py_bind_Ok _ _ _ _ _ (get_app_at _ _ _ Happ)). rewrite Hrun.
  unfold call_builder. rewrite Hb.
  rewrite (Py_bind_Ok _ _ w w (builder (app_context app))) by reflexivity.
  cbv zeta.
  repeat (erewrite Py_bind_Ok;
          [|first [ apply update_app_at; cbn [apps]; apply lookup_insert_eq
                  | apply update_app_at; exact Happ
                  | reflexivity
                  | unfold lift; rewrite Hq; reflexivity ]]).
  unfold qt. cbn [stdout contexts apps qt_events].
  rewrite !insert_insert_eq, <- app_assoc.
  unfold set__state, set__widget, set__layout, set_app_application.
  cbn [app_context _builder _title _state _running _widget app_application
       _layout _windowsize].
  by rewrite Hrun, Hb.
Qed.

(** When the paint raises, [run] stops after creating the [QApplication],
    the window and the empty layout. *)
Lemma Application_run_paint_Raise self w app builder e :
  apps w !! self = Some app → _running app = false
  → _builder app = Some builder
  → paintWidget (build hash repr (app_context app) (builder (app_context app)))
    = Raise e
  → Application_run hash repr self w
    = ({| stdout := stdout w; contexts := contexts w;
          apps :=
            <[self :=
                {| app_context := app_context app; _builder := _builder app;
                   _title := _title app;
                   _state := Some (build hash repr (app_context app)
                                     (builder (app_context app)));
                   _running := false;
                   _widget :=
                     Some {| window_has_layout := false; windowTitle := "";
                             window_size := None; window_visible := false |};
                   app_application := true;
                   _layout := Some [];
                   _windowsize := _windowsize app |}]> (apps w);
          qt_events := qt_events w ++ [QApplication_new] |}, Raise e).
Proof.
  intros Happ Hrun Hb Hq. unfold Application_run.
  rewrite (Py_bind_Ok _ _ _ _ _ (get_app_at _ _ _ Happ)). rewrite Hrun.
  unfold call_builder. rewrite Hb.
  rewrite (Py_bind_Ok _ _ w w (builder (app_context app))) by reflexivity.
  cbv zeta.
  repeat (erewrite Py_bind_Ok;
          [|first [ apply update_app_at; cbn [apps]; apply lookup_insert_eq
                  | apply update_app_at; exact Happ
                  | reflexivity ]]).
  erewrite Py_bind_Raise; [|unfold lift; rewrite Hq; reflexivity].
  unfold qt. cbn [stdout contexts apps qt_events].
  rewrite !insert_insert_eq.
  unfold set__state, set__widget, set__layout, set_app_application.
  cbn [app_context _builder _title _state _running _widget app_application
       _layout _windowsize].
  by rewrite Hrun, Hb.
Qed.

(** X10. [run] on an application that is not running and has a builder
    whose tree has all its [TextField]s wired succeeds: it stores the built
    tree in [_state], creates the [QApplication], puts the painted tree as
    the one element of the layout, titles and shows the window (resized
    only when both width and height were given) and enters the event loop;
    nothing else in the store changes. *)
Theorem Application_run_starts self w app builder :
  apps w !! self = Some app → _running app = false
  → _builder app = Some builder
  → textfields_wired (builder (app_context app)) = true
  → ∃ q,
      paintWidget (build hash repr (app_context app)
                     (builder (app_context app))) = Ok q
      ∧ Application_run hash repr self w
        = ({| stdout := stdout w; contexts := contexts w;
              apps :=
                <[self :=
                    {| app_context := app_context app;
                       _builder := _builder app;
                       _title := _title app;
                       _state := Some (build hash repr (app_context app)
                                         (builder (app_context app)));
                       _running := false;
                       _widget :=
                         Some {| window_has_layout := true;
                                 windowTitle := _title app;
                                 window_size :=
                                   match _windowsize app with
                                   | (Some width, Some height) =>
                                       Some (width, height)
                                   | _ => None
                                   end;
                                 window_visible := true |};
                       app_application := true;
                       _layout := Some [q];
                       _windowsize := _windowsize app |}]> (apps w);
              qt_events := qt_events w ++ [QApplication_new; exec_] |},
           Ok ()).
Proof.
  intros Happ Hrun Hb Hwired.
  destruct (paint_built_cases hash repr (app_context app)
              (height (builder (app_context app)))
              (builder (app_context app))) as [Hok _]; [lia|].
  destruct (Hok Hwired) as [q Hq]. exists q. split; [exact Hq|].
  by apply Application_run_Ok.
Qed.

(** X11. How [run] fails.  Without a builder it raises [TypeError] and
    changes nothing.  With a builder whose tree holds a [TextField] without
    [onChanged] it raises the [TypeError] of the paint after it has created
    the [QApplication], the window and the layout: the layout stays empty,
    the window is never shown and the event loop is not entered.  On an
    application whose [_running] is true it returns at once. *)
Theorem Application_run_failures :
  (∀ self w app,
     apps w !! self = Some app → _running app = false
     → _builder app = None
     → Application_run hash repr self w
       = (w, Raise (TypeError "'NoneType' object is not callable")))
  ∧ (∀ self w app builder,
       apps w !! self = Some app → _running app = false
       → _builder app = Some builder
       → textfields_wired (builder (app_context app)) = false
       → ∃ w',
           Application_run hash repr self w
           = (w', Raise (TypeError "argument 1 has unexpected type 'NoneType'"))
           ∧ (_layout <$> apps w' !! self) = Some (Some [])
           ∧ (app_application <$> apps w' !! self) = Some true
           ∧ (window_visible <$> (apps w' !! self ≫= _widget)) = Some false
           ∧ qt_events w' = qt_events w ++ [QApplication_new])
  ∧ (∀ self w app,
       apps w !! self = Some app → _running app = true
       → Application_run hash repr self w = (w, Ok ())).
Proof.
  split; [|split].
  - intros self w app Happ Hrun Hb. unfold Application_run.
    rewrite (Py_bind_Ok _ _ _ _ _ (get_app_at _ _ _ Happ)). rewrite Hrun.
    apply Py_bind_Raise. unfold call_builder. by rewrite Hb.
  - intros self w app builder Happ Hrun Hb Hwired.
    destruct (paint_built_cases hash repr (app_context app)
                (height (builder (app_context app)))
                (builder (app_context app))) as [_ Hraise]; [lia|].
    eexists. split.
    + apply (Application_run_paint_Raise _ _ _ _ _ Happ Hrun Hb).
      by apply Hraise.
    + cbn [apps qt_events]. rewrite lookup_insert_eq. done.
  - intros self w app Happ Hrun. unfold Application_run.
    rewrite (Py_bind_Ok _ _ _ _ _ (get_app_at _ _ _ Happ)). by rewrite Hrun.
Qed.

End ApplicationRun.

Section ApplicationRepaint.

Context (hash : string → Z) (repr : PyVal → string).

Lemma Application_setState_Ok self w app builder old rest q :
  apps w !! self = Some app → _builder app = Some builder
  → _layout app = Some (old :: rest)
  → paintWidget (build hash repr (app_context app) (builder (app_context app)))
    = Ok q
  → Application_setState hash repr self w
    = ({| stdout := stdout w; contexts := contexts w;
          apps := <[self := set__layout (Some (rest ++ [q])) app]> (apps w);
          qt_events := qt_events w ++ [deleteLater old] |}, Ok ()).
Proof.
  intros Happ Hb Hlayout Hq. unfold Application_setState.
  rewrite (Py_bind_Ok _ _ _ _ _ (get_app_at _ _ _ Happ)).
  unfold call_builder. rewrite Hb.
  rewrite (Py_bind_Ok _ _ w w (builder (app_context app))) by reflexivity.
  cbv zeta. rewrite Hlayout.
  repeat (erewrite Py_bind_Ok;
          [|first [ apply update_app_at; cbn [apps]; apply lookup_insert_eq
                  | apply update_app_at; exact Happ
                  | reflexivity
                  | unfold lift; rewrite Hq; reflexivity ]]).
  erewrite update_app_at by (cbn [apps]; apply lookup_insert_eq).
  cbn [stdout contexts apps qt_events]. rewrite insert_insert_eq.
  reflexivity.
Qed.

Lemma BuildContext_setState_owner c ctx self w :
  contexts w !! c = Some ctx → _application ctx = Some self
  → BuildContext_setState hash repr c w = Application_setState hash repr self w.
Proof.
  intros Hc Hself. unfold BuildContext_setState.
  rewrite (Py_bind_Ok _ _ w w ctx) by (unfold get_context; by rewrite Hc).
  by rewrite Hself.
Qed.

(** X12. [Application.setState] before a successful [run] never repaints
    and leaves the store unchanged.  It calls the builder first: without a
    builder it raises [TypeError], whatever the layout.  With a builder it
    raises [AttributeError] for the missing [_layout] on an application
    that has not run, and [AttributeError] on the missing item when the
    layout is empty, as a [run] stopped by a failing paint leaves it.  So
    on a freshly constructed application it raises [TypeError] when no
    builder was given and [AttributeError] otherwise. *)
Theorem Application_setState_needs_layout :
  (∀ self w app,
     apps w !! self = Some app → _builder app = None
     → Application_setState hash repr self w
       = (w, Raise (TypeError "'NoneType' object is not callable")))
  ∧ (∀ self w app builder,
       apps w !! self = Some app → _builder app = Some builder
       → _layout app = None
       → Application_setState hash repr self w
         = (w, Raise (AttributeError
                        "'Application' object has no attribute '_layout'")))
  ∧ (∀ self w app builder,
       apps w !! self = Some app → _builder app = Some builder
       → _layout app = Some []
       → Application_setState hash repr self w
         = (w, Raise (AttributeError
                        "'NoneType' object has no attribute 'widget'")))
  ∧ (∀ w builder title width height,
       ∃ self w',
         Application_init None builder title width height w = (w', Ok self)
         ∧ Application_setState hash repr self w'
           = (w', Raise
                    (match builder with
                     | None => TypeError "'NoneType' object is not callable"
                     | Some _ =>
                         AttributeError
                           "'Application' object has no attribute '_layout'"
                     end))).
Proof.
  assert (∀ self w app,
     apps w !! self = Some app → _builder app = None
     → Application_setState hash repr self w
       = (w, Raise (TypeError "'NoneType' object is not callable")))
    as Hnobuilder.
  { intros self w app Happ Hb. unfold Application_setState.
    rewrite (Py_bind_Ok _ _ _ _ _ (get_app_at _ _ _ Happ)).
    apply Py_bind_Raise. unfold call_builder. by rewrite Hb. }
  assert (∀ self w app builder,
     apps w !! self = Some app → _builder app = Some builder
     → _layout app = None
     → Application_setState hash repr self w
       = (w, Raise (AttributeError
                      "'Application' object has no attribute '_layout'")))
    as Hnone.
  { intros self w app builder Happ Hb Hlayout. unfold Application_setState.
    rewrite (Py_bind_Ok _ _ _ _ _ (get_app_at _ _ _ Happ)).
    unfold call_builder. rewrite Hb.
    rewrite (Py_bind_Ok _ _ w w (builder (app_context app))) by reflexivity.
    cbv zeta. by rewrite Hlayout. }
  split; [exact Hnobuilder|]. split; [exact Hnone|]. split.
  - intros self w app builder Happ Hb Hlayout. unfold Application_setState.
    rewrite (Py_bind_Ok _ _ _ _ _ (get_app_at _ _ _ Happ)).
    unfold call_builder. rewrite Hb.
    rewrite (Py_bind_Ok _ _ w w (builder (app_context app))) by reflexivity.
    cbv zeta. by rewrite Hlayout.
  - intros w builder title width height. do 2 eexists.
    split; [reflexivity|]. destruct builder as [builder|].
    + eapply Hnone; [cbn [apps]; apply lookup_insert_eq| |]; reflexivity.
    + eapply Hnobuilder; [cbn [apps]; apply lookup_insert_eq|]; reflexivity.
Qed.

(** When the paint of the new tree raises, the element that was shown
    is gone already. *)
Lemma Application_setState_paint_Raise self w app builder old rest e :
  apps w !! self = Some app → _builder app = Some builder
  → _layout app = Some (old :: rest)
  → paintWidget (build hash repr (app_context app) (builder (app_context app)))
    = Raise e
  → Application_setState hash repr self w
    = ({| stdout := stdout w; contexts := contexts w;
          apps := <[self := set__layout (Some rest) app]> (apps w);
          qt_events := qt_events w ++ [deleteLater old] |}, Raise e).
Proof.
  intros Happ Hb Hlayout Hq. unfold Application_setState.
  rewrite (Py_bind_Ok _ _ _ _ _ (get_app_at _ _ _ Happ)).
  unfold call_builder. rewrite Hb.
  rewrite (Py_bind_Ok _ _ w w (builder (app_context app))) by reflexivity.
  cbv zeta. rewrite Hlayout.
  repeat (erewrite Py_bind_Ok;
          [|first [ apply update_app_at; cbn [apps]; apply lookup_insert_eq
                  | apply update_app_at; exact Happ
                  | reflexivity ]]).
  erewrite Py_bind_Raise; [|unfold lift; rewrite Hq; reflexivity].
  reflexivity.
Qed.

(** X13. A repaint.  Whatever element [old] the layout shows first,
    [Application.setState] calls the builder, builds and paints the tree
    it returns, takes [old] out of the layout, hands it to [deleteLater]
    and appends the newly painted element; every other attribute of the
    application ([_state] too) and the rest of the store stay as they
    were.  When the new tree does not paint, the exception leaves the
    layout without [old], which has been handed to [deleteLater] already.
    [BuildContext.setState] on a context that points at the application
    does the same. *)
Theorem Application_setState_repaints :
  (∀ self w app builder old rest q,
     apps w !! self = Some app → _builder app = Some builder
     → _layout app = Some (old :: rest)
     → paintWidget (build hash repr (app_context app)
                      (builder (app_context app))) = Ok q
     → Application_setState hash repr self w
       = ({| stdout := stdout w; contexts := contexts w;
             apps :=
               <[self :=
                   {| app_context := app_context app;
                      _builder := _builder app; _title := _title app;
                      _state := _state app; _running := _running app;
                      _widget := _widget app;
                      app_application := app_application app;
                      _layout := Some (rest ++ [q]);
                      _windowsize := _windowsize app |}]> (apps w);
             qt_events := qt_events w ++ [deleteLater old] |}, Ok ()))
  ∧ (∀ self w app builder old rest e,
       apps w !! self = Some app → _builder app = Some builder
       → _layout app = Some (old :: rest)
       → paintWidget (build hash repr (app_context app)
                        (builder (app_context app))) = Raise e
       → Application_setState hash repr self w
         = ({| stdout := stdout w; contexts := contexts w;
               apps :=
                 <[self :=
                     {| app_context := app_context app;
                        _builder := _builder app; _title := _title app;
                        _state := _state app; _running := _running app;
                        _widget := _widget app;
                        app_application := app_application app;
                        _layout := Some rest;
                        _windowsize := _windowsize app |}]> (apps w);
               qt_events := qt_events w ++ [deleteLater old] |}, Raise e))
  ∧ (∀ c ctx self w,
       contexts w !! c = Some ctx → _application ctx = Some self
       → BuildContext_setState hash repr c w
         = Application_setState hash repr self w)
  ∧ (∀ c ctx w,
       contexts w !! c = Some ctx → _application ctx = None
       → BuildContext_setState hash repr c w = (w, Ok ())).
Proof.
  split; [|split; [|split]].
  - intros. by erewrite Application_setState_Ok.
  - intros. by erewrite Application_setState_paint_Raise.
  - intros c ctx self w. apply BuildContext_setState_owner.
  - intros c ctx w Hc Hnone. unfold BuildContext_setState.
    rewrite (Py_bind_Ok _ _ w w ctx) by (unfold get_context; by rewrite Hc).
    by rewrite Hnone.
Qed.

(** X14. Construction links application and context.  With no context
    given, [Application(...)] takes an address no application has, makes a
    new context that points back at it and leaves every other object as it
    was; the new application is idle.  With a context given, that context
    is made to point at the new application, whichever application it
    belonged to: a repaint asked of the context then goes to the new
    application. *)
Theorem Application_init_links :
  (∀ builder title width height w,
     ∃ self c,
       Application_init None builder title width height w
       = ({| stdout := stdout w;
             contexts := <[c := BuildContext_init (Some self)]> (contexts w);
             apps :=
               <[self := {| app_context := c; _builder := builder;
                            _title := title; _state := None;
                            _running := false; _widget := None;
                            app_application := false; _layout := None;
                            _windowsize := (width, height) |}]> (apps w);
             qt_events := qt_events w |}, Ok self)
       ∧ apps w !! self = None ∧ contexts w !! c = None)
  ∧ (∀ c ctx builder title width height w,
       contexts w !! c = Some ctx
       → ∃ self w',
           Application_init (Some c) builder title width height w
           = (w', Ok self)
           ∧ apps w !! self = None
           ∧ contexts w' !! c
             = Some {| _application := Some self; counter := counter ctx |}
           ∧ (∀ c', c' ≠ c → contexts w' !! c' = contexts w !! c')
           ∧ BuildContext_setState hash repr c w'
             = Application_setState hash repr self w').
Proof.
  split.
  - intros. do 2 eexists. split; [reflexivity|]. split.
    + apply not_elem_of_dom, is_fresh.
    + apply not_elem_of_dom, is_fresh.
  - intros c ctx builder title width height w Hc. do 2 eexists.
    split; [reflexivity|]. cbn [contexts].
    assert (alter (λ ctx0, {| _application := Some (fresh (dom (apps w)));
                              counter := counter ctx0 |}) c (contexts w) !! c
            = Some {| _application := Some (fresh (dom (apps w)));
                      counter := counter ctx |}) as Hnew.
    { by rewrite lookup_alter_eq, Hc. }
    split; [apply not_elem_of_dom, is_fresh|]. split; [exact Hnew|]. split.
    + intros c' Hne. by rewrite lookup_alter_ne.
    + by eapply BuildContext_setState_owner; [cbn [contexts]; exact Hnew|].
Qed.

End ApplicationRepaint.

(** ** The theorems on the example stores *)

Lemma Application_run_starts_witness :
  apps example_world !! 0%nat = Some example_app
  ∧ _running example_app = false
  ∧ _builder example_app = Some example_builder
  ∧ textfields_wired (example_builder (app_context example_app)) = true
  ∧ ∃ q w',
      paintWidget (build example_hash example_repr 0%nat (example_builder 0%nat))
      = Ok q
      ∧ Application_run example_hash example_repr 0%nat example_world
        = (w', Ok ())
      ∧ (_layout <$> apps w' !! 0%nat) = Some (Some [q])
      ∧ qt_events w' = [QApplication_new; exec_].
Proof.
  assert (apps example_world !! 0%nat = Some example_app) as Happ
    by reflexivity.
  split; [exact Happ|]. split; [reflexivity|]. split; [reflexivity|].
  split; [reflexivity|].
  destruct (Application_run_starts example_hash example_repr 0%nat
              example_world example_app example_builder Happ eq_refl eq_refl
              eq_refl) as (q & Hq & Hrun).
  exists q. eexists. split; [exact Hq|]. split; [exact Hrun|].
  cbn [apps qt_events]. rewrite lookup_insert_eq. split; reflexivity.
Defined.

Lemma Application_run_failures_witness :
  apps unwired_world !! 0%nat = Some unwired_app
  ∧ _running unwired_app = false
  ∧ _builder unwired_app = Some unwired_builder
  ∧ textfields_wired (unwired_builder (app_context unwired_app)) = false
  ∧ ∃ w',
      Application_run example_hash example_repr 0%nat unwired_world
      = (w', Raise (TypeError "argument 1 has unexpected type 'NoneType'"))
      ∧ (_layout <$> apps w' !! 0%nat) = Some (Some [])
      ∧ (app_application <$> apps w' !! 0%nat) = Some true
      ∧ (window_visible <$> (apps w' !! 0%nat ≫= _widget)) = Some false
      ∧ qt_events w' = qt_events unwired_world ++ [QApplication_new].
Proof.
  assert (apps unwired_world !! 0%nat = Some unwired_app) as Happ
    by reflexivity.
  split; [exact Happ|]. split; [reflexivity|]. split; [reflexivity|].
  split; [reflexivity|].
  exact (proj1 (proj2 (Application_run_failures example_hash example_repr))
           0%nat unwired_world unwired_app unwired_builder Happ eq_refl
           eq_refl eq_refl).
Defined.

Lemma Application_setState_needs_layout_witness :
  apps example_world !! 0%nat = Some example_app
  ∧ _builder example_app = Some example_builder
  ∧ _layout example_app = None
  ∧ Application_setState example_hash example_repr 0%nat example_world
    = (example_world,
       Raise (AttributeError "'Application' object has no attribute '_layout'"))
  ∧ apps nobuilder_world !! 0%nat = Some nobuilder_app
  ∧ _builder nobuilder_app = None
  ∧ Application_setState example_hash example_repr 0%nat nobuilder_world
    = (nobuilder_world,
       Raise (TypeError "'NoneType' object is not callable")).
Proof.
  assert (apps example_world !! 0%nat = Some example_app) as Happ
    by reflexivity.
  assert (apps nobuilder_world !! 0%nat = Some nobuilder_app) as Hno
    by reflexivity.
  split; [exact Happ|]. split; [reflexivity|]. split; [reflexivity|].
  split.
  - exact (proj1 (proj2 (Application_setState_needs_layout example_hash
                           example_repr))
             0%nat example_world example_app example_builder Happ eq_refl
             eq_refl).
  - split; [exact Hno|]. split; [reflexivity|].
    exact (proj1 (Application_setState_needs_layout example_hash example_repr)
             0%nat nobuilder_world nobuilder_app Hno eq_refl).
Defined.

Lemma Application_setState_repaints_witness :
  apps stale_world !! 0%nat = Some stale_app
  ∧ _builder stale_app = Some example_builder
  ∧ _layout stale_app = Some [QLabel "old"]
  ∧ ∃ q,
      paintWidget (build example_hash example_repr 0%nat (example_builder 0%nat))
      = Ok q
      ∧ q ≠ QLabel "old"
      ∧ ∃ w',
          Application_setState example_hash example_repr 0%nat stale_world
          = (w', Ok ())
          ∧ (_layout <$> apps w' !! 0%nat) = Some (Some [q])
          ∧ qt_events w' = [deleteLater (QLabel "old")].
Proof.
  assert (apps stale_world !! 0%nat = Some stale_app) as Happ by reflexivity.
  split; [exact Happ|]. split; [reflexivity|]. split; [reflexivity|].
  eexists. split; [vm_compute; reflexivity|]. split; [discriminate|].
  eexists. split.
  - refine (proj1 (Application_setState_repaints example_hash example_repr)
              0%nat stale_world stale_app example_builder (QLabel "old") []
              _ Happ eq_refl eq_refl _).
    vm_compute. reflexivity.
  - cbn [apps qt_events]. rewrite lookup_insert_eq. split; reflexivity.
Defined.

Lemma Application_init_links_witness :
  contexts example_world !! 0%nat = Some (BuildContext_init (Some 0%nat))
  ∧ ∃ self w',
      Application_init (Some 0%nat) (Some unwired_builder) "second" None None
        example_world = (w', Ok self)
      ∧ apps example_world !! self = None
      ∧ contexts w' !! 0%nat
        = Some {| _application := Some self; counter := 0 |}
      ∧ BuildContext_setState example_hash example_repr 0%nat w'
        = Application_setState example_hash example_repr self w'.
Proof.
  assert (contexts example_world !! 0%nat
          = Some (BuildContext_init (Some 0%nat))) as Hctx by reflexivity.
  split; [exact Hctx|].
  destruct (proj2 (Application_init_links example_hash example_repr) 0%nat
              (BuildContext_init (Some 0%nat)) (Some unwired_builder) "second"
              None None example_world Hctx)
    as (self & w' & Hinit & Hfresh & Hc & _ & Hset).
  exists self, w'. repeat split; assumption.
Defined.
